(** * order-service: order placement and cache-aside reads

    A shallow embedding of the Go packages [repository] and [service]:

    - [internal/repository]: the [Order] entity, the [IOrderRepository] and
      [IOrderCache] interfaces, and the Redis-backed [OrderCache];
    - [internal/service]: [OrderService] with [fetchProductInfo],
      [CreateOrder] and [GetOrdersByProductID];
    - [internal/service/order_service_test.go]: the mocks and the test
      catalog server, used here as concrete collaborators.

    Collaborators that live outside the repository (the HTTP client, the
    JSON codec, the UUID generator, the clock, the Redis client) are taken as
    interfaces over an abstract world state [W]; every call to a
    collaborator is recorded in a trace of events, so that statements such
    as "the store receives no write" are statements about that trace. *)

From Stdlib Require Import ZArith List Bool Lia.
From Stdlib Require Import Floats.
From stdpp Require Import base option strings pretty gmap.

Set Default Proof Using "Type".
Local Open Scope Z_scope.

(* ===================================================================== *)
(** ** Go values *)
(* ===================================================================== *)

Module Go.

(** Go's [int] on the 64-bit targets the service is built for. *)
Definition int := Z.
Definition int_min : Z := - 2 ^ 63.
Definition int_max : Z := 2 ^ 63 - 1.
Definition is_int (n : Z) : Prop := int_min <= n <= int_max.

(** A slice value is either [nil] or a (possibly empty) sequence: the two
    are different values, and [s != nil] tells them apart. *)
Definition slice (A : Type) := option (list A).
Definition is_nil {A} (s : slice A) : bool :=
  match s with None => true | Some _ => false end.

(** [float64] is IEEE 754 binary64. *)
Definition float64 := float.

(** The conversion [float64(n)] of an [int]: the nearest binary64 value,
    ties to even.  [of_uint63] covers [0 <= n < 2^63]; the remaining
    value [-2^63] is a power of two. *)
Definition float64_of_int (n : int) : float64 :=
  if 0 <=? n then of_uint63 (Uint63.of_Z n)
  else if n =? int_min then (- 0x1p63)%float
  else (- of_uint63 (Uint63.of_Z (- n)))%float.

(** Shapes of a binary64 value in [spec_float] form: not NaN and of sign
    [sx]; zero or finite. *)
Definition signed (sx : bool) (x : spec_float) : Prop :=
  match x with
  | S754_zero s | S754_infinity s | S754_finite s _ _ => s = sx
  | S754_nan => False
  end.

Definition finite_or_zero (x : spec_float) : Prop :=
  match x with
  | S754_zero _ | S754_finite _ _ _ => True
  | _ => False
  end.

(** Error values, by dynamic type. *)
Inductive error : Type :=
| errorString (s : string)                (* errors.New, fmt.Errorf without %w *)
| wrapError (msg : string) (err : error)  (* fmt.Errorf with %w *)
| RedisError (s : string)                 (* go-redis' proto.RedisError *)
| foreignError (s : string).              (* an error of another library *)

(** The method [Error()]. *)
Definition Error (e : error) : string :=
  match e with
  | errorString s => s
  | wrapError msg _ => msg
  | RedisError s => s
  | foreignError s => s
  end.

Definition errors_New (s : string) : error := errorString s.

(** [fmt.Errorf] with a format that has no [%w]. *)
Definition fmt_Errorf (msg : string) : error := errorString msg.

(** [fmt.Errorf(prefix + "%w", err)]. *)
Definition fmt_Errorf_w (prefix : string) (err : error) : error :=
  wrapError (prefix +:+ Error err) err.

(** [time.Time] as nanoseconds since the Unix epoch, [time.Duration] as
    nanoseconds; the zero [time.Time] is January 1 of year 1. *)
Definition Time := Z.
Definition Duration := Z.
Definition Second : Duration := 1000000000.
Definition zero_Time : Time := - 62135596800 * Second.

End Go.
Import Go.

(* ===================================================================== *)
(** ** package repository: the data model *)
(* ===================================================================== *)

Record Order : Type := mkOrder {
  ID         : string;
  ProductID  : string;
  TotalPrice : float64;
  Quantity   : int;
  Status     : string;
  CreatedAt  : Time
}.

(** An HTTP response as [fetchProductInfo] reads it. *)
Record http_Response : Type := mkResponse {
  resp_StatusCode : Z;
  resp_Status     : string;
  resp_Body       : string
}.
Definition http_StatusOK : Z := 200.

(* ===================================================================== *)
(** ** Effects: calls to collaborators, recorded in a trace

    An event records one call to a collaborator: its arguments and what
    the collaborator returned. *)
(* ===================================================================== *)

Inductive Event : Type :=
| EvHTTPGet (url : string) (resp : http_Response) (err : option error)
| EvUUID (id : string)
| EvNow (t : Time)
| EvRepoCreate (o : Order) (err : option error)
| EvRepoGetByProductID (productID : string) (orders : slice Order)
                       (err : option error)
| EvCacheGet (key : string) (orders : slice Order) (err : option error)
| EvCacheSet (key : string) (orders : slice Order) (err : option error)
| EvPublish (productId : string) (quantity : int) (err : option error)
| EvLog (msg : string).

Definition is_store_write (e : Event) : bool :=
  match e with EvRepoCreate _ _ => true | _ => false end.
Definition is_store_query (e : Event) : bool :=
  match e with EvRepoGetByProductID _ _ _ => true | _ => false end.
Definition is_store_call (e : Event) : bool :=
  is_store_write e || is_store_query e.
Definition is_publish (e : Event) : bool :=
  match e with EvPublish _ _ _ => true | _ => false end.
Definition is_cache_write (e : Event) : bool :=
  match e with EvCacheSet _ _ _ => true | _ => false end.

(** The events of a trace that satisfy [p], in order. *)
Definition calls (p : Event -> bool) (tr : list Event) : list Event :=
  List.filter p tr.

(** A computation over the world [W]: it returns a value, the next world
    and the events it produced. *)
Definition M (W A : Type) : Type := W -> A * W * list Event.

Definition ret {W A} (a : A) : M W A := fun w => (a, w, []).

Definition bind {W A B} (m : M W A) (k : A -> M W B) : M W B :=
  fun w =>
    let '(a, w1, t1) := m w in
    let '(b, w2, t2) := k a w1 in
    (b, w2, t1 ++ t2).

#[global] Instance M_ret {W} : MRet (M W) := fun A => @ret W A.
#[global] Instance M_bind {W} : MBind (M W) := fun A B k m => bind m k.

(** A call to a collaborator [f]; the event [ev] records the call and what
    it returned. *)
Definition call {W A} (ev : A -> Event) (f : W -> A * W) : M W A :=
  fun w => let '(a, w1) := f w in (a, w1, [ev a]).

Definition call2 {W A B} (ev : A -> B -> Event) (f : W -> (A * B) * W)
  : M W (A * B) :=
  call (fun r => ev (fst r) (snd r)) f.

(** [log.Printf] / [log.Println]: the message goes to the trace. *)
Definition log_Printf {W} (msg : string) : M W unit :=
  fun w => (tt, w, [EvLog msg]).

(* ===================================================================== *)
(** ** package repository: interfaces *)
(* ===================================================================== *)

(** [IOrderRepository].  [Create] takes a pointer in Go; the
    implementations ([OrderRepository], the test mock) only read through
    it, so the order is passed by value. *)
Record IOrderRepository (W : Type) : Type := {
  Create : Order -> W -> option error * W;
  GetByProductID : string -> W -> (slice Order * option error) * W
}.
Arguments Create {W} _ _ _.
Arguments GetByProductID {W} _ _ _.

(** [IOrderCache].  [Get] returns a slice and an error; either, both or
    neither may be nil. *)
Record IOrderCache (W : Type) : Type := {
  Get : string -> W -> (slice Order * option error) * W;
  Set_ : string -> slice Order -> W -> option error * W;
  GetCacheKeyForProduct : string -> string
}.
Arguments Get {W} _ _ _.
Arguments Set_ {W} _ _ _ _.
Arguments GetCacheKeyForProduct {W} _ _.

(* ===================================================================== *)
(** ** package service: DTOs and interfaces *)
(* ===================================================================== *)

Record CreateOrderRequest : Type := mkRequest {
  req_ProductID : string;
  req_Quantity  : int
}.

Record ProductResponse : Type := mkProduct {
  prod_ID : string;
  Name    : string;
  Price   : float64;
  Qty     : int
}.

Record IPublisher (W : Type) : Type := {
  PublishOrderCreated : string -> int -> W -> option error * W
}.
Arguments PublishOrderCreated {W} _ _ _ _.

(** The packages the service calls directly: [net/http], [encoding/json]
    (decoding a [ProductResponse]), [github.com/google/uuid] and [time]. *)
Class Runtime (W : Type) : Type := {
  http_Get : string -> W -> (http_Response * option error) * W;
  json_Decode_ProductResponse : string -> ProductResponse * option error;
  uuid_New_String : W -> string * W;
  time_Now : W -> Time * W
}.

Record OrderService (W : Type) : Type := {
  repo              : IOrderRepository W;
  cache             : IOrderCache W;
  publisher         : IPublisher W;
  productServiceURL : string
}.
Arguments repo {W} _.
Arguments cache {W} _.
Arguments publisher {W} _.
Arguments productServiceURL {W} _.

Definition NewOrderService {W} (r : IOrderRepository W) (c : IOrderCache W)
    (pub : IPublisher W) (productURL : string) : OrderService W :=
  {| repo := r; cache := c; publisher := pub; productServiceURL := productURL |}.

(* ===================================================================== *)
(** ** package service: OrderService *)
(* ===================================================================== *)

Definition ErrProductUnavailable : error :=
  errors_New "product not found or service unavailable".
Definition ErrInsufficientStock : error :=
  errors_New "insufficient stock".

Section OrderService.
Context {W : Type} `{Runtime W}.
Variable s : OrderService W.

(** [fmt.Sprintf("%s/products/%s", s.productServiceURL, productID)] *)
Definition product_url (productID : string) : string :=
  productServiceURL s +:+ "/products/" +:+ productID.

Definition fetchProductInfo (productID : string)
  : M W (option ProductResponse * option error) :=
  let url := product_url productID in
  '(resp, err) ← call2 (EvHTTPGet url) (http_Get url);
  match err with
  | Some err =>
      mret (None, Some (fmt_Errorf_w "failed to call product service: " err))
  | None =>
      if negb (resp_StatusCode resp =? http_StatusOK) then
        mret (None, Some (fmt_Errorf
               ("product service returned status: " +:+ resp_Status resp)))
      else
        let '(product, err) := json_Decode_ProductResponse (resp_Body resp) in
        match err with
        | Some err =>
            mret (None, Some (fmt_Errorf_w
                   "failed to decode product response: " err))
        | None => mret (Some product, None)
        end
  end.

Definition CreateOrder (req : CreateOrderRequest)
  : M W (option Order * option error) :=
  (* 1. Fetch product info from product-service *)
  '(product, err) ← fetchProductInfo (req_ProductID req);
  match product, err with
  | _, Some err =>
      log_Printf ("Error fetching product " +:+ req_ProductID req +:+ ": "
                  +:+ Error err) ;;
      mret (None, Some ErrProductUnavailable)
  | None, None =>
      (* unreachable: [fetchProductInfo] returns a product or an error;
         Go would dereference a nil pointer here *)
      mret (None, None)
  | Some product, None =>
      (* 2. Validate stock *)
      if Qty product <? req_Quantity req then
        mret (None, Some ErrInsufficientStock)
      else
        (* 3. Create and save order *)
        id ← call EvUUID uuid_New_String;
        now ← call EvNow time_Now;
        let order :=
          {| ID := id;
             ProductID := req_ProductID req;
             TotalPrice := (Price product * float64_of_int (req_Quantity req))%float;
             Quantity := req_Quantity req;
             Status := "PENDING";
             CreatedAt := now |} in
        err ← call (EvRepoCreate order) (Create (repo s) order);
        match err with
        | Some err => mret (None, Some err)
        | None =>
            (* 4. Publish event *)
            err ← call (EvPublish (ProductID order) (Quantity order))
                     (PublishOrderCreated (publisher s)
                        (ProductID order) (Quantity order));
            match err with
            | Some err =>
                log_Printf ("Failed to publish order.created event: "
                            +:+ Error err)
            | None =>
                log_Printf ("Published order.created event for product "
                            +:+ ProductID order)
            end ;;
            mret (Some order, None)
        end
  end.

Definition GetOrdersByProductID (productID : string)
  : M W (slice Order * option error) :=
  let cacheKey := GetCacheKeyForProduct (cache s) productID in
  (* Check cache first *)
  '(cachedOrders, err) ← call2 (EvCacheGet cacheKey) (Get (cache s) cacheKey);
  match err with
  | Some err => log_Printf ("Redis error on get: " +:+ Error err)
  | None => mret tt
  end ;;
  if negb (is_nil cachedOrders) then
    log_Printf "Returning cached orders" ;;
    mret (cachedOrders, None)
  else
    (* If cache miss, get from DB *)
    log_Printf "Fetching orders from DB" ;;
    '(orders, err) ← call2 (EvRepoGetByProductID productID)
                        (GetByProductID (repo s) productID);
    match err with
    | Some err => mret (None, Some err)
    | None =>
        (* Save to cache *)
        err ← call (EvCacheSet cacheKey orders)
                 (Set_ (cache s) cacheKey orders);
        match err with
        | Some err => log_Printf ("Redis error on set: " +:+ Error err)
        | None => mret tt
        end ;;
        mret (orders, None)
    end.

End OrderService.

(* ===================================================================== *)
(** ** package repository: OrderCache, the Redis-backed IOrderCache *)
(* ===================================================================== *)

(** The two go-redis commands [OrderCache] issues:
    [client.Get(ctx, key).Result()] and [client.Set(ctx, key, val, ttl).Err()]. *)
Record redis_Client (W : Type) : Type := {
  redis_Get : string -> W -> (string * option error) * W;
  redis_Set : string -> string -> Duration -> W -> option error * W
}.
Arguments redis_Get {W} _ _ _.
Arguments redis_Set {W} _ _ _ _ _.

(** [redis.Nil], the reply for a key that does not exist. *)
Definition redis_Nil : error := RedisError "redis: nil".

(** [err == redis.Nil]: same dynamic type, same text. *)
Definition is_redis_Nil (err : error) : bool :=
  match err with
  | RedisError s => String.eqb s "redis: nil"
  | _ => false
  end.

(** [encoding/json] at the type [[]Order].  [json_Unmarshal] decodes into a
    fresh nil slice and returns what the slice holds afterwards together
    with the error, as [OrderCache.Get] does. *)
Class OrdersJSON : Type := {
  json_Marshal : slice Order -> string * option error;
  json_Unmarshal : string -> slice Order * option error
}.

Record OrderCache (W : Type) : Type := {
  client : redis_Client W
}.
Arguments client {W} _.

Definition NewOrderCache {W} (c : redis_Client W) : OrderCache W :=
  {| client := c |}.

(** The expiration [OrderCache.Set] passes to Redis. *)
Definition cache_ttl : Duration := 60 * Second.

Section OrderCache.
Context {W : Type} `{OrdersJSON}.
Variable c : OrderCache W.

Definition OrderCache_Get (key : string) (w : W)
  : (slice Order * option error) * W :=
  let '((val, err), w1) := redis_Get (client c) key w in
  match err with
  | Some err =>
      if is_redis_Nil err then ((None, None), w1)
      else ((None, Some err), w1)
  | None => (json_Unmarshal val, w1)
  end.

Definition OrderCache_Set (key : string) (orders : slice Order) (w : W)
  : option error * W :=
  let '(val, err) := json_Marshal orders in
  match err with
  | Some err => (Some err, w)
  | None => redis_Set (client c) key val cache_ttl w
  end.

Definition OrderCache_GetCacheKeyForProduct (productID : string) : string :=
  "orders:product:" +:+ productID.

(** [var _ IOrderCache = &OrderCache{}] *)
Definition OrderCache_IOrderCache : IOrderCache W :=
  {| Get := OrderCache_Get;
     Set_ := OrderCache_Set;
     GetCacheKeyForProduct := OrderCache_GetCacheKeyForProduct |}.

End OrderCache.

(* ===================================================================== *)
(** ** A Redis server in memory *)
(* ===================================================================== *)

(** The behaviour of Redis that [OrderCache] relies on: [SET key val EX ttl]
    stores the value with a deadline, [GET key] returns it until the
    deadline has passed and the nil reply afterwards; an unreachable server
    makes every command fail. *)
Record RedisServer : Type := mkRedis {
  entries   : gmap string (string * Time);
  clock     : Time;
  reachable : bool
}.

Definition ErrRedisDown : error :=
  foreignError "dial tcp: connect: connection refused".

Definition server_Get (key : string) (r : RedisServer)
  : (string * option error) * RedisServer :=
  if negb (reachable r) then (("", Some ErrRedisDown), r)
  else match entries r !! key with
       | Some (val, deadline) =>
           if clock r <? deadline then ((val, None), r)
           else (("", Some redis_Nil), r)
       | None => (("", Some redis_Nil), r)
       end.

Definition server_Set (key val : string) (ttl : Duration) (r : RedisServer)
  : option error * RedisServer :=
  if negb (reachable r) then (Some ErrRedisDown, r)
  else (None, {| entries := <[key := (val, clock r + ttl)]> (entries r);
                 clock := clock r;
                 reachable := reachable r |}).

(** Time passing on the server. *)
Definition elapse (d : Duration) (r : RedisServer) : RedisServer :=
  {| entries := entries r; clock := clock r + d; reachable := reachable r |}.

Definition server_Client : redis_Client RedisServer :=
  {| redis_Get := server_Get; redis_Set := server_Set |}.

(* ===================================================================== *)
(** ** package service, tests: mocks and the catalog test server *)
(* ===================================================================== *)

(** The world the examples run in: a supply of UUIDs, the wall clock, a
    Redis server and the rows of the orders table, in insertion order. *)
Record World : Type := mkWorld {
  uuids : list string;
  wall  : Time;
  redis : RedisServer;
  rows  : list Order
}.

Definition world_uuid (w : World) : string * World :=
  match uuids w with
  | [] => ("", w)
  | u :: us =>
      (u, {| uuids := us; wall := wall w; redis := redis w; rows := rows w |})
  end.

Definition world_now (w : World) : Time * World := (wall w, w).

(** A Redis client connected to the world's server. *)
Definition on_redis {A} (f : RedisServer -> A * RedisServer) (w : World)
  : A * World :=
  let '(a, r) := f (redis w) in
  (a, {| uuids := uuids w; wall := wall w; redis := r; rows := rows w |}).

Definition world_Client : redis_Client World :=
  {| redis_Get := fun key => on_redis (server_Get key);
     redis_Set := fun key val ttl => on_redis (server_Set key val ttl) |}.

(** [mockOrderRepository], [mockOrderCache] and [mockPublisher] of
    order_service_test.go. *)
Definition mockOrderRepository {W} : IOrderRepository W :=
  {| Create := fun _ w => (None, w);
     GetByProductID := fun _ w => ((None, None), w) |}.

Definition mockOrderCache {W} : IOrderCache W :=
  {| Get := fun _ w => ((None, None), w);
     Set_ := fun _ _ w => (None, w);
     GetCacheKeyForProduct := fun _ => "key" |}.

Definition mockPublisher {W} (shouldFail : bool) : IPublisher W :=
  {| PublishOrderCreated := fun _ _ w =>
       (if shouldFail then Some (errors_New "publish failed") else None, w) |}.

(** A repository over the rows of the world: [Create] appends a row,
    [GetByProductID] selects the rows of a product. *)
Definition memOrderRepository : IOrderRepository World :=
  {| Create := fun o w =>
       (None, {| uuids := uuids w; wall := wall w; redis := redis w;
                 rows := rows w ++ [o] |});
     GetByProductID := fun productID w =>
       ((Some (List.filter (fun o => String.eqb (ProductID o) productID) (rows w)),
         None), w) |}.

(** A repository whose writes and reads fail. *)
Definition ErrDatabaseDown : error := foreignError "failed to connect to database".

Definition failingOrderRepository {W} : IOrderRepository W :=
  {| Create := fun _ w => (Some ErrDatabaseDown, w);
     GetByProductID := fun _ w => ((None, Some ErrDatabaseDown), w) |}.

(** [strip_prefix p s]: the rest of [s] after the prefix [p]. *)
Fixpoint strip_prefix (p s : string) : option string :=
  match p, s with
  | EmptyString, _ => Some s
  | String a p', String b s' =>
      if Ascii.eqb a b then strip_prefix p' s' else None
  | String _ _, EmptyString => None
  end.

(** [net/url]: what the server sees in [r.URL.Path] of a request URL, here
    the part of the URL behind the host: it ends before the query string
    ([?]) or the fragment ([#]), and its percent-escapes are decoded.  A
    control character or a malformed escape makes the URL invalid. *)
Definition hex_value (a : Ascii.ascii) : option N :=
  let n := Ascii.N_of_ascii a in
  if ((48 <=? n) && (n <=? 57))%N then Some (n - 48)%N
  else if ((97 <=? n) && (n <=? 102))%N then Some (n - 87)%N
  else if ((65 <=? n) && (n <=? 70))%N then Some (n - 55)%N
  else None.

Fixpoint url_unescape (s : string) : option string :=
  match s with
  | EmptyString => Some EmptyString
  | String c rest =>
      if (Ascii.N_of_ascii c =? 37)%N (* % *) then
        match rest with
        | String a (String b rest') =>
            match hex_value a, hex_value b with
            | Some x, Some y =>
                option_map (String (Ascii.ascii_of_N (16 * x + y)))
                           (url_unescape rest')
            | _, _ => None
            end
        | _ => None
        end
      else option_map (String c) (url_unescape rest)
  end.

Fixpoint before_query (s : string) : string :=
  match s with
  | EmptyString => EmptyString
  | String c rest =>
      if (Ascii.N_of_ascii c =? 63)%N (* ? *)
         || (Ascii.N_of_ascii c =? 35)%N (* # *)
      then EmptyString
      else String c (before_query rest)
  end.

Fixpoint has_control (s : string) : bool :=
  match s with
  | EmptyString => false
  | String c rest =>
      (Ascii.N_of_ascii c <? 32)%N || (Ascii.N_of_ascii c =? 127)%N || has_control rest
  end.

Definition url_Path (rest : string) : option string :=
  if has_control rest then None else url_unescape (before_query rest).

(** An [httptest] server listening at [base], answering by request path;
    a URL elsewhere cannot be reached, and an invalid URL is not sent. *)
Definition httptest_Get (base : string) (handler : string -> http_Response)
    (url : string) : http_Response * option error :=
  let none := {| resp_StatusCode := 0; resp_Status := ""; resp_Body := "" |} in
  match strip_prefix base url with
  | Some rest =>
      match url_Path rest with
      | Some path => (handler path, None)
      | None => (none, Some (foreignError "parse: invalid URL"))
      end
  | None => (none, Some (foreignError "dial tcp: lookup: no such host"))
  end.

Definition respond (code : Z) (status body : string) : http_Response :=
  {| resp_StatusCode := code; resp_Status := status; resp_Body := body |}.

Definition body_valid_product : string :=
  "{'id':'valid-product', 'name':'Test', 'price':'10.0', 'qty':100}".
Definition body_no_stock : string :=
  "{'id':'no-stock', 'name':'Test', 'price':'10.0', 'qty':1}".
Definition body_refund : string :=
  "{'id':'refund', 'name':'Test', 'price':'-10.0', 'qty':0}".
Definition body_garbled : string := "{'id':".

(** The handler of [TestCreateOrder], with two more products: one with a
    negative price and one whose body is cut short.  (The bodies are
    written with ['] for the JSON quote.) *)
Definition test_handler (path : string) : http_Response :=
  if String.eqb path "/products/valid-product" then
    respond 200 "200 OK" body_valid_product
  else if String.eqb path "/products/no-stock" then
    respond 200 "200 OK" body_no_stock
  else if String.eqb path "/products/refund" then
    respond 200 "200 OK" body_refund
  else if String.eqb path "/products/garbled" then
    respond 200 "200 OK" body_garbled
  else
    respond 404 "404 Not Found" "".

(** What [json.Decoder.Decode] makes of these bodies. *)
Definition zero_ProductResponse : ProductResponse :=
  {| prod_ID := ""; Name := ""; Price := 0%float; Qty := 0 |}.

Definition test_Decode (body : string) : ProductResponse * option error :=
  if String.eqb body body_valid_product then
    ({| prod_ID := "valid-product"; Name := "Test"; Price := 10%float; Qty := 100 |},
     None)
  else if String.eqb body body_no_stock then
    ({| prod_ID := "no-stock"; Name := "Test"; Price := 10%float; Qty := 1 |},
     None)
  else if String.eqb body body_refund then
    ({| prod_ID := "refund"; Name := "Test"; Price := (-10)%float; Qty := 0 |},
     None)
  else
    (zero_ProductResponse, Some (foreignError "unexpected EOF")).

Definition server_URL : string := "http://127.0.0.1:8081".

#[global] Instance test_Runtime : Runtime World :=
  {| http_Get := fun url w => (httptest_Get server_URL test_handler url, w);
     json_Decode_ProductResponse := test_Decode;
     uuid_New_String := world_uuid;
     time_Now := world_now |}.

(** [json.Marshal] and [json.Unmarshal] on the two cached values used in
    the examples: a list of one order, and an array whose element has a
    string where [Quantity] expects a number (the decoder keeps the fields
    it could fill and reports the mismatch). *)
Definition zero_Order : Order :=
  {| ID := ""; ProductID := ""; TotalPrice := 0%float; Quantity := 0;
     Status := ""; CreatedAt := zero_Time |}.

Definition partial_Order : Order :=
  {| ID := "o-1"; ProductID := ProductID zero_Order;
     TotalPrice := TotalPrice zero_Order; Quantity := Quantity zero_Order;
     Status := Status zero_Order; CreatedAt := CreatedAt zero_Order |}.

Definition sample_Order : Order :=
  {| ID := "7f0c0e4e-0000-4000-8000-000000000001"; ProductID := "valid-product";
     TotalPrice := 50%float; Quantity := 5; Status := "PENDING";
     CreatedAt := 1700000000000000000 |}.

Definition json_sample : string :=
  "[{'ID':'7f0c0e4e-0000-4000-8000-000000000001','ProductID':'valid-product','TotalPrice':50,'Quantity':5,'Status':'PENDING','CreatedAt':'2023-11-14T22:13:20Z'}]".

Definition json_mistyped : string := "[{'ID':'o-1','Quantity':'many'}]".

Definition ErrUnmarshalType : error :=
  foreignError
    "json: cannot unmarshal string into Go struct field Order.Quantity of type int".

Definition is_sample (orders : slice Order) : bool :=
  match orders with
  | Some [o] =>
      String.eqb (ID o) (ID sample_Order)
      && String.eqb (ProductID o) (ProductID sample_Order)
      && PrimFloat.Leibniz.eqb (TotalPrice o) (TotalPrice sample_Order)
      && (Quantity o =? Quantity sample_Order)
      && String.eqb (Status o) (Status sample_Order)
      && (CreatedAt o =? CreatedAt sample_Order)
  | _ => false
  end.

#[global] Instance test_OrdersJSON : OrdersJSON :=
  {| json_Marshal := fun orders =>
       match orders with
       | None => ("null", None)
       | Some [] => ("[]", None)
       | _ => if is_sample orders then (json_sample, None)
              else ("", Some (foreignError "json: unsupported value"))
       end;
     json_Unmarshal := fun data =>
       if String.eqb data "null" then (None, None)
       else if String.eqb data "[]" then (Some [], None)
       else if String.eqb data json_sample then (Some [sample_Order], None)
       else if String.eqb data json_mistyped then
         (Some [partial_Order], Some ErrUnmarshalType)
       else (None, Some (foreignError "invalid character")) |}.

Definition test_World : World :=
  {| uuids := ["7f0c0e4e-0000-4000-8000-000000000001";
               "7f0c0e4e-0000-4000-8000-000000000002"];
     wall := 1700000000000000000;
     redis := {| entries := ∅; clock := 1700000000000000000; reachable := true |};
     rows := [] |}.

(** The service of [TestCreateOrder]. *)
Definition test_service (shouldFail : bool) : OrderService World :=
  NewOrderService mockOrderRepository mockOrderCache
                  (mockPublisher shouldFail) server_URL.

(** Services built from other collaborators: a repository that is down,
    the in-memory repository, a catalog that cannot be reached, and the
    Redis-backed cache in front of the in-memory repository. *)
Definition failing_store_service : OrderService World :=
  NewOrderService failingOrderRepository mockOrderCache
                  (mockPublisher false) server_URL.

Definition mem_service (shouldFail : bool) : OrderService World :=
  NewOrderService memOrderRepository mockOrderCache
                  (mockPublisher shouldFail) server_URL.

Definition unreachable_catalog_service : OrderService World :=
  NewOrderService mockOrderRepository mockOrderCache
                  (mockPublisher false) "http://catalog.invalid".

Definition cached_service : OrderService World :=
  NewOrderService memOrderRepository
                  (OrderCache_IOrderCache (NewOrderCache world_Client))
                  (mockPublisher false) server_URL.

(** A world whose orders table holds one order of the product
    valid-product, with nothing cached. *)
Definition stored_World : World :=
  {| uuids := uuids test_World; wall := wall test_World;
     redis := redis test_World; rows := [sample_Order] |}.

(** The same world, with a value under the product's cache key that does
    not decode cleanly. *)
Definition stale_World : World :=
  {| uuids := uuids test_World; wall := wall test_World;
     redis := {| entries := {[ "orders:product:valid-product" :=
                               (json_mistyped, wall test_World + cache_ttl) ]};
                 clock := wall test_World;
                 reachable := true |};
     rows := [sample_Order] |}.


(** The world with the order stored and Redis unreachable. *)
Definition down_World : World :=
  {| uuids := uuids test_World; wall := wall test_World;
     redis := {| entries := ∅; clock := wall test_World; reachable := false |};
     rows := [sample_Order] |}.

(* ===================================================================== *)
(** ** Ways the catalog lookup can fail *)
(* ===================================================================== *)

(** The three causes [fetchProductInfo] tells apart: the request does not
    get through, the catalog answers with a status other than 200, or the
    body of a 200 answer does not decode. *)
Inductive catalog_lookup_fails {W} `{Runtime W} (url : string) (w : W) : Prop :=
| transport_failure resp err w1 :
    http_Get url w = ((resp, Some err), w1) ->
    catalog_lookup_fails url w
| non_success_status resp w1 :
    http_Get url w = ((resp, None), w1) ->
    resp_StatusCode resp <> http_StatusOK ->
    catalog_lookup_fails url w
| malformed_body resp w1 product err :
    http_Get url w = ((resp, None), w1) ->
    resp_StatusCode resp = http_StatusOK ->
    json_Decode_ProductResponse (resp_Body resp) = (product, Some err) ->
    catalog_lookup_fails url w.

(** What [GetOrdersByProductID] logs after a cache read and a cache write. *)
Definition log_get_error (err : option error) : list Event :=
  match err with
  | Some err => [EvLog ("Redis error on get: " +:+ Error err)]
  | None => []
  end.

Definition log_set_error (err : option error) : list Event :=
  match err with
  | Some err => [EvLog ("Redis error on set: " +:+ Error err)]
  | None => []
  end.

(* ===================================================================== *)
(** ** More views of a trace *)
(* ===================================================================== *)

Definition is_cache_call (e : Event) : bool :=
  match e with EvCacheGet _ _ _ | EvCacheSet _ _ _ => true | _ => false end.
Definition is_cache_read (e : Event) : bool :=
  match e with EvCacheGet _ _ _ => true | _ => false end.
Definition is_http (e : Event) : bool :=
  match e with EvHTTPGet _ _ _ => true | _ => false end.
Definition is_fresh_value (e : Event) : bool :=
  match e with EvUUID _ | EvNow _ => true | _ => false end.

(* ===================================================================== *)
(** ** package repository: OrderRepository, the gorm-backed repository *)
(* ===================================================================== *)

(** The two gorm calls [OrderRepository] makes: [db.Create(order).Error],
    and [db.Where(query, arg).Find(&orders).Error] together with what
    [Find] left in [orders], a nil slice before the call. *)
Record gorm_DB (W : Type) : Type := {
  gorm_Create : Order -> W -> option error * W;
  gorm_Where_Find : string -> string -> W -> (slice Order * option error) * W
}.
Arguments gorm_Create {W} _ _ _.
Arguments gorm_Where_Find {W} _ _ _ _.

Record OrderRepository (W : Type) : Type := {
  db : gorm_DB W
}.
Arguments db {W} _.

Definition NewOrderRepository {W} (d : gorm_DB W) : OrderRepository W :=
  {| db := d |}.

Section OrderRepository.
Context {W : Type}.
Variable r : OrderRepository W.

Definition OrderRepository_Create (order : Order) (w : W) : option error * W :=
  gorm_Create (db r) order w.

Definition OrderRepository_GetByProductID (productID : string) (w : W)
  : (slice Order * option error) * W :=
  gorm_Where_Find (db r) "product_id = ?" productID w.

(** [var _ IOrderRepository = &OrderRepository{}] *)
Definition OrderRepository_IOrderRepository : IOrderRepository W :=
  {| Create := OrderRepository_Create;
     GetByProductID := OrderRepository_GetByProductID |}.

End OrderRepository.

(** The orders table of a database that can be out of reach.  The rows are
    those of the world; [db_up] tells whether the database answers.
    [Create] inserts a row, and fails when the database is out of reach or
    when a row with the same primary key ([ID]) exists.
    [Where("product_id = ?", id).Find] selects the rows of a product into a
    fresh, non-nil slice and fails, leaving the slice nil, when the
    database is out of reach.  The query has no ORDER BY: the rows come
    back in the order [scan] gives them, which is the database's choice. *)
Record Database : Type := mkDatabase {
  db_world : World;
  db_up    : bool
}.

Definition on_world {A} (f : World -> A * World) (d : Database) : A * Database :=
  let '(a, w) := f (db_world d) in
  (a, {| db_world := w; db_up := db_up d |}).

Definition database_Client : redis_Client Database :=
  {| redis_Get := fun key => on_world (redis_Get world_Client key);
     redis_Set := fun key val ttl => on_world (redis_Set world_Client key val ttl) |}.

Definition database_Runtime : Runtime Database :=
  {| http_Get := fun url => on_world (http_Get url);
     json_Decode_ProductResponse := test_Decode;
     uuid_New_String := on_world uuid_New_String;
     time_Now := on_world time_Now |}.

Definition ErrUnsupportedQuery : error := foreignError "unsupported query".
Definition ErrDuplicateKey : error :=
  foreignError "ERROR: duplicate key value violates unique constraint (SQLSTATE 23505)".

Definition has_key (id : string) (table : list Order) : bool :=
  existsb (fun x => String.eqb (ID x) id) table.

(** The rows of a product, in the order they were inserted. *)
Definition rows_of (productID : string) (w : World) : list Order :=
  List.filter (fun o => String.eqb (ProductID o) productID) (rows w).

Definition insert_row (o : Order) (w : World) : World :=
  {| uuids := uuids w; wall := wall w; redis := redis w; rows := rows w ++ [o] |}.

Definition table_DB (scan : list Order -> list Order) : gorm_DB Database :=
  {| gorm_Create := fun o d =>
       if negb (db_up d) then (Some ErrDatabaseDown, d)
       else if has_key (ID o) (rows (db_world d)) then (Some ErrDuplicateKey, d)
       else (None, {| db_world := insert_row o (db_world d); db_up := db_up d |});
     gorm_Where_Find := fun query arg d =>
       if negb (db_up d) then ((None, Some ErrDatabaseDown), d)
       else if String.eqb query "product_id = ?" then
         ((Some (scan (rows_of arg (db_world d))), None), d)
       else ((None, Some ErrUnsupportedQuery), d) |}.

(** The service as [main] wires it, on the table and Redis, with the
    publisher of the tests. *)
Definition table_service `{OrdersJSON} (scan : list Order -> list Order)
  : OrderService Database :=
  NewOrderService
    (OrderRepository_IOrderRepository (NewOrderRepository (table_DB scan)))
    (OrderCache_IOrderCache (NewOrderCache database_Client))
    (mockPublisher false) server_URL.

(* ===================================================================== *)
(** ** package service: RabbitMQPublisher *)
(* ===================================================================== *)

(** [amqp.Queue] and the fields of [amqp.Publishing] the publisher sets. *)
Record amqp_Queue : Type := mkQueue {
  queue_Name : string;
  queue_Messages : Z;
  queue_Consumers : Z
}.

Record amqp_Publishing : Type := mkPublishing {
  ContentType : string;
  Body : string
}.

(** The two calls on [*amqp.Channel]:
    [QueueDeclare(name, durable, autoDelete, exclusive, noWait, args)],
    always with nil [args], and
    [Publish(exchange, key, mandatory, immediate, msg)]. *)
Record amqp_Channel (W : Type) : Type := {
  QueueDeclare : string -> bool -> bool -> bool -> bool ->
                 W -> (amqp_Queue * option error) * W;
  Publish : string -> string -> bool -> bool -> amqp_Publishing ->
            W -> option error * W
}.
Arguments QueueDeclare {W} _ _ _ _ _ _ _.
Arguments Publish {W} _ _ _ _ _ _ _.

(** [json.Marshal] of the event map with the keys [productId] and
    [quantity]. *)
Class EventJSON : Type := {
  json_Marshal_event : string -> int -> string * option error
}.

Record RabbitMQPublisher (W : Type) : Type := {
  channel : amqp_Channel W
}.
Arguments channel {W} _.

Definition NewRabbitMQPublisher {W} (ch : amqp_Channel W)
  : RabbitMQPublisher W :=
  {| channel := ch |}.

Section RabbitMQPublisher.
Context {W : Type} `{EventJSON}.
Variable p : RabbitMQPublisher W.

Definition RabbitMQPublisher_PublishOrderCreated
    (productId : string) (quantity : int) (w : W) : option error * W :=
  let '((q, err), w1) :=
    QueueDeclare (channel p)
      "order.created" (* name *)
      false           (* durable *)
      false           (* delete when unused *)
      false           (* exclusive *)
      false           (* no-wait *)
      w in
  match err with
  | Some err => (Some (fmt_Errorf_w "failed to declare a queue: " err), w1)
  | None =>
      let '(body, err) := json_Marshal_event productId quantity in
      match err with
      | Some err => (Some (fmt_Errorf_w "failed to marshal event: " err), w1)
      | None =>
          Publish (channel p)
            ""             (* exchange *)
            (queue_Name q) (* routing key *)
            false          (* mandatory *)
            false          (* immediate *)
            {| ContentType := "application/json"; Body := body |}
            w1
      end
  end.

(** [var _ IPublisher = &RabbitMQPublisher{}] *)
Definition RabbitMQPublisher_IPublisher : IPublisher W :=
  {| PublishOrderCreated := RabbitMQPublisher_PublishOrderCreated |}.

End RabbitMQPublisher.

(** [errors.Unwrap]. *)
Definition errors_Unwrap (e : error) : option error :=
  match e with
  | wrapError _ err => Some err
  | _ => None
  end.

(* ===================================================================== *)
(** ** A message broker in memory *)
(* ===================================================================== *)

(** The behaviour of the broker that the publisher relies on: a channel
    that is closed fails every call; declaring a queue creates it when it
    does not exist and leaves it as it is otherwise; a message published
    to the default exchange goes to the tail of the queue named by the
    routing key, and is dropped when there is no such queue (the publisher
    never sets [mandatory]). *)
Record Broker : Type := mkBroker {
  queues : gmap string (list amqp_Publishing);
  channel_open : bool
}.

Definition ErrChannelClosed : error :=
  foreignError "Exception (504) Reason: channel/connection is not open".

(** The messages waiting in a queue; none when the queue does not exist. *)
Definition messages (name : string) (b : Broker) : list amqp_Publishing :=
  default [] (queues b !! name).

Definition broker_QueueDeclare (name : string)
    (durable autoDelete exclusive noWait : bool) (b : Broker)
  : (amqp_Queue * option error) * Broker :=
  if negb (channel_open b) then
    (({| queue_Name := ""; queue_Messages := 0; queue_Consumers := 0 |},
      Some ErrChannelClosed), b)
  else
    match queues b !! name with
    | Some msgs =>
        (({| queue_Name := name; queue_Messages := Z.of_nat (length msgs);
             queue_Consumers := 0 |}, None), b)
    | None =>
        (({| queue_Name := name; queue_Messages := 0; queue_Consumers := 0 |},
          None),
         {| queues := <[name := []]> (queues b);
            channel_open := channel_open b |})
    end.

Definition broker_Publish (exchange key : string) (mandatory immediate : bool)
    (msg : amqp_Publishing) (b : Broker) : option error * Broker :=
  if negb (channel_open b) then (Some ErrChannelClosed, b)
  else if String.eqb exchange "" then
    match queues b !! key with
    | Some msgs =>
        (None, {| queues := <[key := msgs ++ [msg]]> (queues b);
                  channel_open := channel_open b |})
    | None => (None, b)
    end
  else (None, b).

Definition broker_Channel : amqp_Channel Broker :=
  {| QueueDeclare := broker_QueueDeclare; Publish := broker_Publish |}.

(** The publisher on the broker, and a run of it over a list of events,
    one call after the other. *)
Definition broker_Publisher `{EventJSON} : RabbitMQPublisher Broker :=
  NewRabbitMQPublisher broker_Channel.

Fixpoint publish_all `{EventJSON} (events : list (string * int)) (b : Broker)
  : list (option error) * Broker :=
  match events with
  | [] => ([], b)
  | (productId, quantity) :: rest =>
      let '(err, b1) :=
        RabbitMQPublisher_PublishOrderCreated broker_Publisher
          productId quantity b in
      let '(errs, b2) := publish_all rest b1 in
      (err :: errs, b2)
  end.

(** The message the publisher builds for an event. *)
Definition order_created_message `{EventJSON} (event : string * int)
  : amqp_Publishing :=
  {| ContentType := "application/json";
     Body := (json_Marshal_event event.1 event.2).1 |}.

(** The encoding of an event whose product identifier needs no escaping
    (the keys of a map are written in sorted order; ['] stands for the
    JSON quote). *)
#[global] Instance test_EventJSON : EventJSON :=
  {| json_Marshal_event := fun productId quantity =>
       ("{'productId':'" +:+ productId +:+ "','quantity':"
        +:+ pretty quantity +:+ "}", None) |}.

(** An encoder that fails. *)
Definition failing_EventJSON : EventJSON :=
  {| json_Marshal_event := fun _ _ =>
       ("", Some (foreignError "json: unsupported value")) |}.

Definition open_Broker : Broker := {| queues := ∅; channel_open := true |}.
Definition closed_Broker : Broker := {| queues := ∅; channel_open := false |}.

(** A broker with one message waiting in order.created and a queue of
    another consumer. *)
Definition busy_Broker : Broker :=
  {| queues := {[ "order.created" :=
                    [{| ContentType := "application/json";
                        Body := "{'productId':'no-stock','quantity':1}" |}];
                  "audit" := [] ]};
     channel_open := true |}.

(** A connection to the broker that can be lost between two calls: it
    carries [lifetime] more calls, and from the call after those on the
    channel is closed.  ([broker_Channel] on its own stays as it is from one
    call to the next.) *)
Record Link : Type := mkLink {
  link_broker : Broker;
  lifetime    : nat
}.

Definition close (b : Broker) : Broker :=
  {| queues := queues b; channel_open := false |}.

Definition on_link {A} (f : Broker -> A * Broker) (l : Link) : A * Link :=
  match lifetime l with
  | O =>
      let '(a, b) := f (close (link_broker l)) in
      (a, {| link_broker := b; lifetime := O |})
  | S n =>
      let '(a, b) := f (link_broker l) in
      (a, {| link_broker := b; lifetime := n |})
  end.

(** Whether the next call on the link reaches an open channel. *)
Definition serves (l : Link) : bool :=
  match lifetime l with
  | O => false
  | S _ => channel_open (link_broker l)
  end.

Definition link_Channel : amqp_Channel Link :=
  {| QueueDeclare := fun name durable autoDelete exclusive noWait =>
       on_link (broker_QueueDeclare name durable autoDelete exclusive noWait);
     Publish := fun exchange key mandatory immediate msg =>
       on_link (broker_Publish exchange key mandatory immediate msg) |}.

Definition link_Publisher `{EventJSON} : RabbitMQPublisher Link :=
  NewRabbitMQPublisher link_Channel.

(** The Redis-backed cache in front of [mockOrderRepository], whose reads
    return a nil list. *)
Definition nil_store_service : OrderService World :=
  NewOrderService mockOrderRepository
                  (OrderCache_IOrderCache (NewOrderCache world_Client))
                  (mockPublisher false) server_URL.

(** The Redis-backed cache in front of a repository that is down. *)
Definition failing_read_service : OrderService World :=
  NewOrderService failingOrderRepository
                  (OrderCache_IOrderCache (NewOrderCache world_Client))
                  (mockPublisher false) server_URL.

(** The world after the sample order was created: its identifier is used
    up, and the order is in the table. *)
Definition next_World : World :=
  {| uuids := ["7f0c0e4e-0000-4000-8000-000000000002"];
     wall := wall test_World + Second; redis := redis test_World;
     rows := [sample_Order] |}.

(** Databases in reach over these worlds. *)
Definition next_Database : Database := {| db_world := next_World; db_up := true |}.
Definition stored_Database : Database :=
  {| db_world := stored_World; db_up := true |}.

(** A later world: [d] nanoseconds on, with the orders table replaced. *)
Definition later (d : Duration) (table : list Order) (w : World) : World :=
  {| uuids := uuids w; wall := wall w + d; redis := elapse d (redis w);
     rows := table |}.

(* ===================================================================== *)
(** * Properties *)
(* ===================================================================== *)

(** ** Arithmetic of [float64]

    The rounding of [SpecFloat] keeps a mantissa non-negative, so the
    result of a rounded operation is never NaN and carries the sign it was
    given; and an integer below [2^63] rounds to a finite value. *)

Section Float64.

Lemma iter_pos_invariant {A} (P : A -> Prop) (f : A -> A) :
  (forall x, P x -> P (f x)) -> forall n x, P x -> P (SpecFloat.iter_pos f n x).
Proof.
  intros Hf. induction n as [n IH|n IH|]; intros x Hx; cbn; auto.
Qed.

Lemma shr_1_bounds (M : Z) mrs :
  0 <= shr_m mrs <= M -> 0 <= shr_m (shr_1 mrs) <= M.
Proof.
  destruct mrs as [m r s]. cbn [shr_m]. intros Hm.
  destruct m as [|[p|p|]|p]; cbn [shr_1 shr_m]; lia.
Qed.

Lemma shr_bounds (M : Z) mrs e n :
  0 <= shr_m mrs <= M -> 0 <= shr_m (fst (shr mrs e n)) <= M.
Proof.
  intros Hm. destruct n as [|p|p]; cbn [shr fst]; try assumption.
  apply (iter_pos_invariant (fun x => 0 <= shr_m x <= M)); [|assumption].
  intros x. apply shr_1_bounds.
Qed.

Lemma shr_record_of_loc_m m l : shr_m (shr_record_of_loc m l) = m.
Proof. destruct l as [|[]]; reflexivity. Qed.

Lemma shr_fexp_bounds prec emax m e l :
  0 <= m -> 0 <= shr_m (fst (shr_fexp prec emax m e l)) <= m.
Proof.
  intros Hm. unfold shr_fexp. apply shr_bounds.
  rewrite shr_record_of_loc_m. lia.
Qed.

Lemma shr_fexp_exponent prec emax m e l :
  snd (shr_fexp prec emax m e l) = Z.max e (fexp prec emax (Zdigits2 m + e)).
Proof.
  unfold shr_fexp, shr.
  destruct (fexp prec emax (Zdigits2 m + e) - e) eqn:Hn; cbn [snd]; lia.
Qed.

Lemma round_nearest_even_bounds m l :
  0 <= m -> 0 <= round_nearest_even m l <= m + 1.
Proof.
  intros Hm. destruct l as [|[]]; cbn [round_nearest_even]; try lia.
  destruct (Z.even m); lia.
Qed.

Lemma binary_round_aux_signed prec emax sx mx ex lx :
  0 <= mx -> signed sx (binary_round_aux prec emax sx mx ex lx).
Proof.
  intros Hm. unfold binary_round_aux.
  pose proof (shr_fexp_bounds prec emax mx ex lx Hm) as H1.
  destruct (shr_fexp prec emax mx ex lx) as [mrs' e']. cbn [fst] in H1.
  pose proof (round_nearest_even_bounds (shr_m mrs') (loc_of_shr_record mrs')
                ltac:(lia)) as H2.
  pose proof (shr_fexp_bounds prec emax _ e' loc_Exact (proj1 H2)) as H3.
  destruct (shr_fexp prec emax _ e' loc_Exact) as [mrs'' e'']. cbn [fst] in H3.
  destruct (shr_m mrs'') as [|p|p]; [reflexivity| |lia].
  destruct (e'' <=? emax - prec); reflexivity.
Qed.

Lemma digits2_pos_bound p : forall D, Zpos p < 2 ^ D -> 0 <= D ->
  Zpos (digits2_pos p) <= D.
Proof.
  induction p as [p IH|p IH|]; intros D Hp HD; cbn [digits2_pos].
  - assert (D <> 0) by (intros ->; cbn in Hp; lia).
    replace D with (Z.succ (D - 1)) in Hp by lia.
    rewrite Z.pow_succ_r in Hp by lia.
    specialize (IH (D - 1) ltac:(lia) ltac:(lia)). lia.
  - assert (D <> 0) by (intros ->; cbn in Hp; lia).
    replace D with (Z.succ (D - 1)) in Hp by lia.
    rewrite Z.pow_succ_r in Hp by lia.
    specialize (IH (D - 1) ltac:(lia) ltac:(lia)). lia.
  - assert (D <> 0) by (intros ->; cbn in Hp; lia). lia.
Qed.

Lemma Zdigits2_bound m D : 0 <= m < 2 ^ D -> 0 <= D -> Zdigits2 m <= D.
Proof.
  intros Hm HD. destruct m as [|p|p]; cbn [Zdigits2]; [lia| |lia].
  apply digits2_pos_bound; lia.
Qed.

Lemma binary_round_aux_finite sx mx ex lx D :
  0 <= mx < 2 ^ D -> 0 <= D <= 115 -> ex <= 0 -> D + ex <= 63 ->
  finite_or_zero (binary_round_aux prec emax sx mx ex lx).
Proof.
  intros Hm HD Hex Hsum. unfold binary_round_aux.
  pose proof (shr_fexp_bounds prec emax mx ex lx (proj1 Hm)) as H1.
  pose proof (shr_fexp_exponent prec emax mx ex lx) as E1.
  destruct (shr_fexp prec emax mx ex lx) as [mrs' e']. cbn [fst snd] in H1, E1.
  pose proof (round_nearest_even_bounds (shr_m mrs') (loc_of_shr_record mrs')
                ltac:(lia)) as H2.
  set (m2 := round_nearest_even (shr_m mrs') (loc_of_shr_record mrs')) in *.
  pose proof (shr_fexp_bounds prec emax m2 e' loc_Exact (proj1 H2)) as H3.
  pose proof (shr_fexp_exponent prec emax m2 e' loc_Exact) as E2.
  destruct (shr_fexp prec emax m2 e' loc_Exact) as [mrs'' e'']. cbn [fst snd] in H3, E2.
  assert (Hd1 : Zdigits2 mx <= D) by (apply Zdigits2_bound; lia).
  assert (Hd2 : Zdigits2 m2 <= D + 1).
  { apply Zdigits2_bound; [|lia]. rewrite Z.pow_add_r by lia.
    change (2 ^ 1) with 2. lia. }
  unfold fexp, emin, prec, emax in *.
  destruct (shr_m mrs'') as [|p|p]; [exact I| |lia].
  destruct (Z.leb_spec e'' (1024 - 53)); [exact I|lia].
Qed.

Lemma Pos_iter_xO p d : Zpos (Pos.iter xO p d) = Zpos p * 2 ^ Zpos d.
Proof.
  induction d as [|d IH] using Pos.peano_ind.
  - cbn. lia.
  - rewrite Pos.iter_succ, Pos2Z.inj_succ, Z.pow_succ_r by lia.
    rewrite Pos2Z.inj_xO, IH. lia.
Qed.

Lemma binary_normalize_finite (n : Z) :
  0 <= n < 2 ^ 63 ->
  finite_or_zero (binary_normalize prec emax n 0 false) /\
  signed false (binary_normalize prec emax n 0 false).
Proof.
  intros Hn. destruct n as [|p|p]; [split; reflexivity| |lia].
  cbn [binary_normalize]. unfold binary_round.
  pose proof (digits2_pos_bound p 63 ltac:(lia) ltac:(lia)) as Hd.
  assert (Hlow : 1 <= Zpos (digits2_pos p)) by lia.
  unfold shl_align.
  remember (fexp prec emax (Zpos (digits2_pos p) + 0)) as ex' eqn:Hex'.
  assert (Hr : -52 <= ex' <= 10) by (unfold fexp, emin, prec, emax in Hex'; lia).
  destruct (ex' - 0) as [|d|d] eqn:Hsub.
  - split; [apply (binary_round_aux_finite _ _ _ _ 63); lia
           |apply binary_round_aux_signed; lia].
  - split; [apply (binary_round_aux_finite _ _ _ _ 63); lia
           |apply binary_round_aux_signed; lia].
  - split; [|apply binary_round_aux_signed; lia].
    apply (binary_round_aux_finite _ _ _ _ (63 + Zpos d)); try lia.
    rewrite Pos_iter_xO, Z.pow_add_r by lia.
    assert (0 < 2 ^ Zpos d) by (apply Z.pow_pos_nonneg; lia). nia.
Qed.

Lemma Prim2SF_zero : Prim2SF 0%float = S754_zero false.
Proof. reflexivity. Qed.

Lemma Prim2SF_infinity : Prim2SF infinity = S754_infinity false.
Proof. reflexivity. Qed.

Lemma float64_of_int_nonpos (q : Z) :
  is_int q -> q <= 0 ->
  finite_or_zero (Prim2SF (float64_of_int q)) /\
  (Prim2SF (float64_of_int q) = S754_zero false \/
   signed true (Prim2SF (float64_of_int q))).
Proof.
  intros [Hlo Hhi] Hq. unfold float64_of_int, int_min in *.
  destruct (Z.leb_spec 0 q).
  - assert (q = 0) as -> by lia. split; [exact I|left; reflexivity].
  - destruct (Z.eqb_spec q (- 2 ^ 63)) as [->|Hne].
    + split; [exact I|right; reflexivity].
    + rewrite opp_spec, of_uint63_spec, Uint63.of_Z_spec.
      change Uint63.wB with (2 ^ 63).
      rewrite Z.mod_small by lia.
      destruct (binary_normalize_finite (- q) ltac:(lia)) as [Hf Hs].
      destruct (binary_normalize prec emax (- q) 0 false) as [s|s| |s m e];
        cbn in Hf, Hs |- *; try contradiction; subst; auto.
Qed.

Lemma nonneg_finite_class (p : float) :
  (0 <=? p)%float = true -> (p <? infinity)%float = true ->
  match Prim2SF p with
  | S754_zero _ | S754_finite false _ _ => True
  | _ => False
  end.
Proof.
  rewrite leb_spec, ltb_spec, Prim2SF_zero, Prim2SF_infinity.
  destruct (Prim2SF p) as [s|[]| |[] m e]; cbn; intros; try discriminate; exact I.
Qed.

(** A finite, non-negative price times a non-positive quantity is zero or
    negative. *)
Lemma mul_nonneg_nonpos (p : float) (q : Z) :
  (0 <=? p)%float = true -> (p <? infinity)%float = true ->
  is_int q -> q <= 0 ->
  (p * float64_of_int q <=? 0)%float = true.
Proof.
  intros Hp Hfin Hint Hq.
  pose proof (nonneg_finite_class p Hp Hfin) as Hcp.
  destruct (float64_of_int_nonpos q Hint Hq) as [Hfq Hsq].
  rewrite leb_spec, mul_spec, Prim2SF_zero. unfold SF64mul.
  destruct (Prim2SF p) as [sp|sp| |sp mp ep]; try contradiction;
    destruct (Prim2SF (float64_of_int q)) as [sq|sq| |sq mq eq];
    try contradiction; try reflexivity.
  destruct sp; [contradiction|].
  destruct Hsq as [Hsq|Hsq]; [discriminate|]. cbn in Hsq. subst sq.
  cbn [SFmul xorb].
  pose proof (binary_round_aux_signed prec emax true (Zpos (mp * mq)) (ep + eq)
                loc_Exact ltac:(lia)) as Hs.
  destruct (binary_round_aux prec emax true _ _ _) as [s|s| |s m e];
    cbn in Hs; try contradiction; subst; reflexivity.
Qed.

End Float64.

(** ** Running computations *)

Lemma bind_run {W A B} (m : M W A) (k : A -> M W B) (w : W) :
  (m ≫= k) w =
  let '(a, w1, t1) := m w in
  let '(b, w2, t2) := k a w1 in
  (b, w2, t1 ++ t2).
Proof. reflexivity. Qed.

Lemma ret_run {W A} (a : A) (w : W) : (mret a : M W A) w = (a, w, []).
Proof. reflexivity. Qed.

Lemma call_run {W A} (ev : A -> Event) (f : W -> A * W) (w : W) :
  call ev f w = ((f w).1, (f w).2, [ev (f w).1]).
Proof. unfold call. destruct (f w); reflexivity. Qed.

Lemma call2_run {W A B} (ev : A -> B -> Event) (f : W -> (A * B) * W) (w : W) :
  call2 ev f w = ((f w).1, (f w).2, [ev (f w).1.1 (f w).1.2]).
Proof. unfold call2. rewrite call_run. reflexivity. Qed.

Lemma log_run {W} (msg : string) (w : W) :
  log_Printf msg w = (tt, w, [EvLog msg]).
Proof. reflexivity. Qed.

Lemma calls_app (p : Event -> bool) (t1 t2 : list Event) :
  calls p (t1 ++ t2) = calls p t1 ++ calls p t2.
Proof. apply List.filter_app. Qed.

(** Unfolds one layer of sequencing and names the result of each call. *)
Ltac run :=
  repeat first
    [ rewrite bind_run
    | rewrite ret_run
    | rewrite call2_run
    | rewrite call_run
    | rewrite log_run
    | progress cbn [fst snd] ].

(** Closes a goal where the run [Hrun] has a trace that cannot hold the
    event [Hin] speaks of. *)
Ltac no_such_event Hrun Hin :=
  injection Hrun as <- <- <-; cbn in Hin;
  repeat (destruct Hin as [Hin|Hin]; try discriminate); contradiction.

(** Finds an event in a concrete trace. *)
Ltac in_trace := repeat first [left; reflexivity | right].

Section Properties.
Context {W : Type} `{Runtime W}.
Variable s : OrderService W.

(** *** fetchProductInfo *)

(** The lookup makes one HTTP request and nothing else, and it returns
    either a product or an error. *)
Lemma fetchProductInfo_run (productID : string) (w : W) :
  let url := product_url s productID in
  let '((resp, err), w1) := http_Get url w in
  exists r,
    fetchProductInfo s productID w = (r, w1, [EvHTTPGet url resp err]) /\
    ((exists product, r = (Some product, None) /\ err = None /\
        resp_StatusCode resp = http_StatusOK /\
        json_Decode_ProductResponse (resp_Body resp) = (product, None)) \/
     (exists e, r = (None, Some e) /\
        (err <> None \/ resp_StatusCode resp <> http_StatusOK \/
         exists product e', json_Decode_ProductResponse (resp_Body resp)
                            = (product, Some e')))).
Proof.
  cbn zeta. destruct (http_Get _ w) as [[resp err] w1] eqn:Hget.
  unfold fetchProductInfo. run. rewrite Hget. cbn [fst snd].
  destruct err as [err|].
  - run. eexists; split; [reflexivity|]. right. eexists; split; [reflexivity|].
    left; discriminate.
  - destruct (resp_StatusCode resp =? http_StatusOK) eqn:Hst; cbn [negb].
    + apply Z.eqb_eq in Hst.
      destruct (json_Decode_ProductResponse (resp_Body resp)) as [product [e|]] eqn:Hd.
      * run. eexists; split; [reflexivity|]. right. eexists; split; [reflexivity|].
        right; right; eauto.
      * run. eexists; split; [reflexivity|]. left. eauto 10.
    + apply Z.eqb_neq in Hst. run.
      eexists; split; [reflexivity|]. right. eexists; split; [reflexivity|].
      right; left; assumption.
Qed.

(** *** CreateOrder, step by step *)

(** The order [CreateOrder] builds from a request, a product snapshot, a
    fresh identifier and the current time. *)
Lemma CreateOrder_run (req : CreateOrderRequest) (w : W) :
  CreateOrder s req w =
  let '((product, err), w1, t1) := fetchProductInfo s (req_ProductID req) w in
  match product, err with
  | _, Some err =>
      ((None, Some ErrProductUnavailable), w1,
       t1 ++ [EvLog ("Error fetching product " +:+ req_ProductID req +:+ ": "
                     +:+ Error err)])
  | None, None => ((None, None), w1, t1)
  | Some product, None =>
      if Qty product <? req_Quantity req then
        ((None, Some ErrInsufficientStock), w1, t1)
      else
        let '(id, w2) := uuid_New_String w1 in
        let '(now, w3) := time_Now w2 in
        let order :=
          {| ID := id; ProductID := req_ProductID req;
             TotalPrice := (Price product * float64_of_int (req_Quantity req))%float;
             Quantity := req_Quantity req; Status := "PENDING";
             CreatedAt := now |} in
        let '(err, w4) := Create (repo s) order w3 in
        match err with
        | Some err =>
            ((None, Some err), w4,
             t1 ++ [EvUUID id; EvNow now; EvRepoCreate order (Some err)])
        | None =>
            let '(perr, w5) :=
              PublishOrderCreated (publisher s) (req_ProductID req)
                                  (req_Quantity req) w4 in
            ((Some order, None), w5,
             t1 ++ [EvUUID id; EvNow now; EvRepoCreate order None;
                    EvPublish (req_ProductID req) (req_Quantity req) perr;
                    EvLog (match perr with
                           | Some err =>
                               "Failed to publish order.created event: "
                               +:+ Error err
                           | None =>
                               "Published order.created event for product "
                               +:+ req_ProductID req
                           end)])
        end
  end.
Proof.
  unfold CreateOrder. rewrite bind_run.
  destruct (fetchProductInfo s (req_ProductID req) w) as [[[product err] w1] t1].
  destruct err as [err|].
  - destruct product; run; reflexivity.
  - destruct product as [product|]; [|run; rewrite app_nil_r; reflexivity].
    destruct (Qty product <? req_Quantity req).
    + run. rewrite app_nil_r. reflexivity.
    + run.
      destruct (uuid_New_String w1) as [id w2]. cbn [fst snd].
      destruct (time_Now w2) as [now w3]. cbn [fst snd].
      destruct (Create (repo s) _ w3) as [[err|] w4]; cbn [fst snd].
      * run. reflexivity.
      * run. cbn [ProductID Quantity].
        destruct (PublishOrderCreated _ _ _ w4) as [[perr|] w5]; run; reflexivity.
Qed.

(** The trace of a successful lookup holds no call to the store or to the
    publisher. *)
Lemma fetchProductInfo_trace (productID : string) (w w1 : W) r t1 :
  fetchProductInfo s productID w = (r, w1, t1) ->
  exists resp err, t1 = [EvHTTPGet (product_url s productID) resp err].
Proof.
  intros Hf. pose proof (fetchProductInfo_run productID w) as Hrun.
  cbn zeta in Hrun. destruct (http_Get _ w) as [[resp err] w2].
  destruct Hrun as (r' & Hrun & _). rewrite Hrun in Hf.
  injection Hf as _ _ <-. eauto.
Qed.

(** *** CreateOrder *)

(** C1.  When the catalog lookup succeeds with a product whose available
    quantity covers the requested one, [CreateOrder] hands the store one
    order, and only one: its total price is the unit price times the
    quantity (in binary64, as the code computes it), its status is PENDING,
    and its product identifier and quantity are the request's.  When the
    store accepts the write, [CreateOrder] returns that order and no
    error; when the store rejects it, no order and the store's error. *)
Theorem CreateOrder_sufficient_stock
    (req : CreateOrderRequest) (product : ProductResponse)
    (w w1 : W) (t1 : list Event) :
  fetchProductInfo s (req_ProductID req) w = ((Some product, None), w1, t1) ->
  req_Quantity req <= Qty product ->
  exists o err w' tr,
    CreateOrder s req w
      = ((match err with None => Some o | Some _ => None end, err), w', tr) /\
    calls is_store_write tr = [EvRepoCreate o err] /\
    TotalPrice o = (Price product * float64_of_int (req_Quantity req))%float /\
    Status o = "PENDING" /\
    ProductID o = req_ProductID req /\
    Quantity o = req_Quantity req.
Proof.
  intros Hf Hq.
  destruct (fetchProductInfo_trace _ _ _ _ _ Hf) as (resp & herr & ->).
  rewrite CreateOrder_run, Hf.
  destruct (Z.ltb_spec (Qty product) (req_Quantity req)); [lia|].
  destruct (uuid_New_String w1) as [id w2], (time_Now w2) as [now w3].
  cbn zeta.
  destruct (Create (repo s) _ w3) as [[err|] w4].
  - eexists _, (Some err), _, _. split; [reflexivity|]. repeat split.
  - destruct (PublishOrderCreated _ _ _ w4) as [perr w5].
    eexists _, None, _, _. split; [reflexivity|]. repeat split.
Qed.

(** C2.  When the catalog reports fewer available units than requested,
    [CreateOrder] fails with the insufficient-stock error; the world and
    the trace are those of the lookup alone, and the trace holds no store
    write and no publish. *)
Theorem CreateOrder_insufficient_stock
    (req : CreateOrderRequest) (product : ProductResponse)
    (w w1 : W) (t1 : list Event) :
  fetchProductInfo s (req_ProductID req) w = ((Some product, None), w1, t1) ->
  Qty product < req_Quantity req ->
  CreateOrder s req w = ((None, Some ErrInsufficientStock), w1, t1) /\
  calls is_store_write t1 = [] /\
  calls is_publish t1 = [].
Proof.
  intros Hf Hq.
  destruct (fetchProductInfo_trace _ _ _ _ _ Hf) as (resp & herr & ->).
  rewrite CreateOrder_run, Hf.
  destruct (Z.ltb_spec (Qty product) (req_Quantity req)); [|lia].
  repeat split.
Qed.

(** C3.  Whatever makes the catalog lookup fail (the request does not get
    through, the status is not 200, the body does not decode),
    [CreateOrder] returns the same product-unavailable error, leaves the
    world as the HTTP request left it, and its trace holds no store write
    and no publish. *)
Theorem CreateOrder_product_unavailable (req : CreateOrderRequest) (w : W) :
  catalog_lookup_fails (product_url s (req_ProductID req)) w ->
  exists tr,
    CreateOrder s req w =
      ((None, Some ErrProductUnavailable),
       (http_Get (product_url s (req_ProductID req)) w).2, tr) /\
    calls is_store_write tr = [] /\
    calls is_publish tr = [].
Proof.
  intros Hfail.
  pose proof (fetchProductInfo_run (req_ProductID req) w) as Hrun.
  cbn zeta in Hrun. rewrite CreateOrder_run.
  destruct (http_Get _ w) as [[resp err] w1] eqn:Hget.
  destruct Hrun as (r & -> & [(product & -> & -> & Hst & Hd)|(e & -> & _)]).
  - exfalso. destruct Hfail as [? ? ? Hg|? ? Hg Hne|? ? ? ? Hg _ Hd'];
      rewrite Hget in Hg; try discriminate; injection Hg as <- <-.
    + contradiction.
    + rewrite Hd in Hd'. discriminate.
  - eexists. split; [reflexivity|]. split; reflexivity.
Qed.



(** [CreateOrder] returns an order and no error, or no order and an error:
    the product pointer it reads is never nil. *)
Lemma CreateOrder_result (req : CreateOrderRequest) (w : W) :
  (exists o, (CreateOrder s req w).1.1 = (Some o, None)) \/
  (exists e, (CreateOrder s req w).1.1 = (None, Some e)).
Proof.
  rewrite CreateOrder_run.
  pose proof (fetchProductInfo_run (req_ProductID req) w) as Hrun.
  cbn zeta in Hrun. destruct (http_Get _ w) as [[resp herr] w0].
  destruct Hrun as (r & -> & [(product & -> & _)|(e & -> & _)]); [|eauto].
  destruct (Qty product <? req_Quantity req); [eauto|].
  destruct (uuid_New_String w0) as [id w2], (time_Now w2) as [now w3].
  cbn zeta. destruct (Create (repo s) _ w3) as [[err|] w4]; [eauto|].
  destruct (PublishOrderCreated _ _ _ w4) as [perr w5]. eauto.
Qed.

(** C9 (as amended).  A zero or negative quantity is not rejected: when
    the lookup succeeds and the available quantity is at least the
    requested one, [CreateOrder] builds an order whose total price is the
    unit price times the quantity and hands it to the store, exactly once;
    the order is returned when the store accepts it.  The total is zero or
    negative whenever the unit price is non-negative and finite. *)
Theorem CreateOrder_nonpositive_quantity
    (req : CreateOrderRequest) (product : ProductResponse)
    (w w1 w' : W) (t1 tr : list Event) res :
  req_Quantity req <= 0 ->
  fetchProductInfo s (req_ProductID req) w = ((Some product, None), w1, t1) ->
  req_Quantity req <= Qty product ->
  CreateOrder s req w = (res, w', tr) ->
  exists o err,
    calls is_store_write tr = [EvRepoCreate o err] /\
    TotalPrice o = (Price product * float64_of_int (req_Quantity req))%float /\
    Quantity o = req_Quantity req /\
    ProductID o = req_ProductID req /\
    (err = None -> res = (Some o, None)) /\
    (is_int (req_Quantity req) ->
     (0 <=? Price product)%float = true ->
     (Price product <? infinity)%float = true ->
     (TotalPrice o <=? 0)%float = true).
Proof.
  intros Hneg Hf Hq Hrun.
  destruct (fetchProductInfo_trace _ _ _ _ _ Hf) as (resp & herr & ->).
  rewrite CreateOrder_run, Hf in Hrun.
  destruct (Z.ltb_spec (Qty product) (req_Quantity req)); [lia|].
  destruct (uuid_New_String w1) as [id w2], (time_Now w2) as [now w3].
  cbn zeta in Hrun.
  destruct (Create (repo s) _ w3) as [[err|] w4].
  - injection Hrun as <- <- <-. do 2 eexists.
    split; [reflexivity|]. cbn [TotalPrice Quantity ProductID].
    repeat split; [discriminate|]. intros. now apply mul_nonneg_nonpos.
  - destruct (PublishOrderCreated _ _ _ w4) as [perr w5].
    injection Hrun as <- <- <-. do 2 eexists.
    split; [reflexivity|]. cbn [TotalPrice Quantity ProductID].
    repeat split. intros. now apply mul_nonneg_nonpos.
Qed.

(** *** GetOrdersByProductID, step by step *)

Lemma GetOrdersByProductID_run (productID : string) (w : W) :
  GetOrdersByProductID s productID w =
  let cacheKey := GetCacheKeyForProduct (cache s) productID in
  let '((cachedOrders, err), w1) := Get (cache s) cacheKey w in
  let probe := EvCacheGet cacheKey cachedOrders err :: log_get_error err in
  match cachedOrders with
  | Some _ =>
      ((cachedOrders, None), w1, probe ++ [EvLog "Returning cached orders"])
  | None =>
      let '((orders, err), w2) := GetByProductID (repo s) productID w1 in
      let query := [EvLog "Fetching orders from DB";
                    EvRepoGetByProductID productID orders err] in
      match err with
      | Some err => ((None, Some err), w2, probe ++ query)
      | None =>
          let '(err, w3) := Set_ (cache s) cacheKey orders w2 in
          ((orders, None), w3,
           probe ++ query ++ EvCacheSet cacheKey orders err :: log_set_error err)
      end
  end.
Proof.
  unfold GetOrdersByProductID. cbn zeta. run.
  destruct (Get (cache s) _ w) as [[cachedOrders err] w1]. cbn [fst snd].
  assert (Hlog : forall w0 : W,
    (match err with
     | Some err => log_Printf ("Redis error on get: " +:+ Error err)
     | None => mret tt
     end) w0 = (tt, w0, log_get_error err)) by (intros; destruct err; reflexivity).
  rewrite bind_run, Hlog. destruct cachedOrders as [l|]; cbn [is_nil negb].
  - run. rewrite app_nil_r. reflexivity.
  - run. destruct (GetByProductID (repo s) productID w1) as [[orders qerr] w2].
    cbn [fst snd]. destruct qerr as [qerr|].
    + run. rewrite app_nil_r. reflexivity.
    + run. destruct (Set_ (cache s) _ orders w2) as [serr w3]. cbn [fst snd].
      destruct serr; run; rewrite ?app_nil_r; reflexivity.
Qed.

(** The cache is probed exactly once, first, under the key derived from
    the product identifier. *)
Lemma GetOrdersByProductID_probe (productID : string) (w w' : W) res tr
    key cached err :
  GetOrdersByProductID s productID w = (res, w', tr) ->
  In (EvCacheGet key cached err) tr ->
  key = GetCacheKeyForProduct (cache s) productID /\
  Get (cache s) key w = ((cached, err), (Get (cache s) key w).2).
Proof.
  intros Hrun Hin. rewrite GetOrdersByProductID_run in Hrun. cbn zeta in Hrun.
  destruct (Get (cache s) _ w) as [[cachedOrders cerr] w1] eqn:Hget.
  assert (Hprobe : In (EvCacheGet key cached err)
                      [EvCacheGet (GetCacheKeyForProduct (cache s) productID)
                                  cachedOrders cerr]).
  { destruct cachedOrders as [l|].
    - injection Hrun as <- <- <-.
      destruct cerr; cbn in Hin |- *;
        repeat (destruct Hin as [Hin|Hin]; try discriminate); tauto.
    - destruct (GetByProductID (repo s) productID w1) as [[orders qerr] w2].
      destruct qerr as [qerr|].
      + injection Hrun as <- <- <-.
        destruct cerr; cbn in Hin |- *;
          repeat (destruct Hin as [Hin|Hin]; try discriminate); tauto.
      + destruct (Set_ (cache s) _ orders w2) as [serr w3].
        injection Hrun as <- <- <-.
        destruct cerr, serr; cbn in Hin |- *;
          repeat (destruct Hin as [Hin|Hin]; try discriminate); tauto. }
  destruct Hprobe as [Heq|[]]. injection Heq as <- <- <-.
  split; [reflexivity|]. rewrite Hget. reflexivity.
Qed.


(** When the cache probe returns a nil list, with or without an error,
    the store is queried exactly once.  A store error is returned to the
    caller and the cache is not written; otherwise the cache is written
    once with the rows read, and these are returned with no error whether
    or not the cache write succeeds.  Neither cache error reaches the
    caller. *)
Theorem GetOrdersByProductID_miss (productID : string) (w w' : W)
    res tr key (err : option error) :
  GetOrdersByProductID s productID w = (res, w', tr) ->
  In (EvCacheGet key None err) tr ->
  exists orders qerr,
    calls is_store_call tr = [EvRepoGetByProductID productID orders qerr] /\
    match qerr with
    | Some e => res = (None, Some e) /\ calls is_cache_write tr = []
    | None =>
        res = (orders, None) /\
        exists serr, calls is_cache_write tr = [EvCacheSet key orders serr]
    end.
Proof.
  intros Hrun Hin.
  destruct (GetOrdersByProductID_probe _ _ _ _ _ _ _ _ Hrun Hin) as [-> Hget].
  rewrite GetOrdersByProductID_run in Hrun. cbn zeta in Hrun.
  rewrite Hget in Hrun.
  destruct (GetByProductID (repo s) productID _) as [[orders qerr] w2].
  exists orders, qerr. destruct qerr as [qerr|].
  - injection Hrun as <- <- <-. destruct err; repeat split.
  - destruct (Set_ (cache s) _ orders w2) as [serr w3].
    injection Hrun as <- <- <-.
    split; [destruct err, serr; reflexivity|]. split; [reflexivity|].
    exists serr. destruct err, serr; reflexivity.
Qed.

End Properties.

(** ** OrderCache *)

Section OrderCacheProperties.
Context {W : Type} `{Runtime W} `{OrdersJSON}.

(** C10.  When Redis returns a stored value whose decoding fills a
    non-nil list and also reports an error, [OrderCache.Get] returns both;
    a service reading through that cache then returns the partly decoded
    list with a nil error, and the trace holds no call to the store. *)
Theorem GetOrdersByProductID_partial_decode
    (s : OrderService W) (c : OrderCache W) (productID val : string)
    (l : list Order) (e : error) (w w1 : W) :
  cache s = OrderCache_IOrderCache c ->
  redis_Get (client c) (OrderCache_GetCacheKeyForProduct productID) w
    = ((val, None), w1) ->
  json_Unmarshal val = (Some l, Some e) ->
  OrderCache_Get c (OrderCache_GetCacheKeyForProduct productID) w
    = ((Some l, Some e), w1) /\
  exists tr,
    GetOrdersByProductID s productID w = ((Some l, None), w1, tr) /\
    calls is_store_call tr = [].
Proof.
  intros Hc Hget Hdec.
  assert (Hcache : OrderCache_Get c (OrderCache_GetCacheKeyForProduct productID) w
                   = ((Some l, Some e), w1)).
  { unfold OrderCache_Get. rewrite Hget, Hdec. reflexivity. }
  split; [exact Hcache|].
  rewrite GetOrdersByProductID_run, Hc. cbn [GetCacheKeyForProduct Get OrderCache_IOrderCache].
  rewrite Hcache. eexists. split; reflexivity.
Qed.

(** A write that succeeded reached the server: the value stored under the
    key is the encoded list, and it expires [cache_ttl] later. *)
Lemma OrderCache_Set_stored (key : string) (orders : slice Order)
    (r r1 : RedisServer) :
  OrderCache_Set (NewOrderCache server_Client) key orders r = (None, r1) ->
  (json_Marshal orders).2 = None /\
  reachable r1 = true /\
  clock r1 = clock r /\
  entries r1 !! key = Some ((json_Marshal orders).1, clock r + cache_ttl).
Proof.
  unfold OrderCache_Set. cbn [client NewOrderCache redis_Set server_Client].
  destruct (json_Marshal orders) as [val [err|]]; [discriminate|].
  unfold server_Set. destruct (reachable r) eqn:Hup; cbn [negb]; [|discriminate].
  intros [= <-]. cbn [fst snd reachable clock entries].
  rewrite lookup_insert_eq. auto.
Qed.


(** Once the expiration has passed, the same [Get] reports a miss: a nil
    list and a nil error. *)
Lemma OrderCache_Get_expired (key : string) (orders : slice Order)
    (r r1 : RedisServer) (d : Duration) :
  OrderCache_Set (NewOrderCache server_Client) key orders r = (None, r1) ->
  cache_ttl <= d ->
  OrderCache_Get (NewOrderCache server_Client) key (elapse d r1)
    = ((None, None), elapse d r1).
Proof.
  intros Hset Hd.
  destruct (OrderCache_Set_stored _ _ _ _ Hset) as (_ & Hup & Hclock & Hentry).
  unfold OrderCache_Get. cbn [client NewOrderCache redis_Get server_Client].
  unfold server_Get. cbn [elapse reachable entries clock].
  rewrite Hup, Hentry, Hclock. cbn [negb].
  destruct (Z.ltb_spec (clock r + d) (clock r + cache_ttl)); [lia|].
  reflexivity.
Qed.

End OrderCacheProperties.

(* ===================================================================== *)
(** * The test scenarios *)
(* ===================================================================== *)

(** The first case of [TestCreateOrder]: the catalog reports a unit price
    of 10.0 and 100 available units; an order for 5 units costs 50.0. *)
Lemma CreateOrder_valid_product :
  exists o w' tr,
    CreateOrder (test_service false) (mkRequest "valid-product" 5) test_World
      = ((Some o, None), w', tr) /\
    calls is_store_write tr = [EvRepoCreate o None] /\
    TotalPrice o = 50%float /\ Quantity o = 5 /\ Status o = "PENDING" /\
    ProductID o = "valid-product".
Proof.
  epose proof (CreateOrder_sufficient_stock (test_service false)
                 (mkRequest "valid-product" 5) _ test_World _ _) as Hstock.
  edestruct Hstock
    as (o & err & w' & tr & Hrun & Hcalls & Hprice & Hstatus & Hpid & Hqty).
  - vm_compute. reflexivity.
  - vm_compute. discriminate.
  - assert (Herr : err = None).
    { vm_compute in Hrun. now injection Hrun as _ <- _ _. }
    subst err. exists o, w', tr. split; [exact Hrun|]. split; [exact Hcalls|].
    rewrite Hprice, Hstatus, Hpid, Hqty. repeat split.
Defined.

(** The second case of [TestCreateOrder]: one unit available, five
    requested. *)
Lemma CreateOrder_no_stock :
  exists w' tr,
    CreateOrder (mem_service false) (mkRequest "no-stock" 5) test_World
      = ((None, Some ErrInsufficientStock), w', tr) /\
    calls is_store_write tr = [] /\ calls is_publish tr = [] /\
    rows w' = [].
Proof.
  edestruct (CreateOrder_insufficient_stock (mem_service false)
               (mkRequest "no-stock" 5)) as (Hrun & Hw & Hp).
  - vm_compute. reflexivity.
  - vm_compute. reflexivity.
  - do 2 eexists. split; [exact Hrun|]. split; [exact Hw|]. split; [exact Hp|].
    reflexivity.
Defined.

(** The three ways a lookup fails, each ending in the same error: a
    catalog that cannot be reached, a product the catalog does not know
    (404), and a body that is cut short. *)
Lemma CreateOrder_catalog_failures :
  (exists w' tr,
     CreateOrder unreachable_catalog_service (mkRequest "valid-product" 5)
                 test_World
       = ((None, Some ErrProductUnavailable), w', tr) /\
     calls is_store_write tr = [] /\ calls is_publish tr = []) /\
  (exists w' tr,
     CreateOrder (test_service false) (mkRequest "unknown" 5) test_World
       = ((None, Some ErrProductUnavailable), w', tr) /\
     calls is_store_write tr = [] /\ calls is_publish tr = []) /\
  (exists w' tr,
     CreateOrder (test_service false) (mkRequest "garbled" 5) test_World
       = ((None, Some ErrProductUnavailable), w', tr) /\
     calls is_store_write tr = [] /\ calls is_publish tr = []).
Proof.
  repeat split.
  - edestruct (CreateOrder_product_unavailable unreachable_catalog_service
                 (mkRequest "valid-product" 5) test_World) as (tr & Hrun & Hw & Hp).
    + eapply transport_failure. vm_compute. reflexivity.
    + eauto.
  - edestruct (CreateOrder_product_unavailable (test_service false)
                 (mkRequest "unknown" 5) test_World) as (tr & Hrun & Hw & Hp).
    + eapply non_success_status; [vm_compute; reflexivity|].
      vm_compute. discriminate.
    + eauto.
  - edestruct (CreateOrder_product_unavailable (test_service false)
                 (mkRequest "garbled" 5) test_World) as (tr & Hrun & Hw & Hp).
    + eapply malformed_body; vm_compute; reflexivity.
    + eauto.
Defined.





(** An order for minus three units of a product that costs 10.0: it is
    written and returned, with a total of -30.0. *)
Lemma CreateOrder_negative_quantity :
  exists o w' tr,
    CreateOrder (test_service false) (mkRequest "valid-product" (-3)) test_World
      = ((Some o, None), w', tr) /\
    calls is_store_write tr = [EvRepoCreate o None] /\
    TotalPrice o = (-30)%float /\
    (TotalPrice o <=? 0)%float = true.
Proof.
  edestruct CreateOrder_nonpositive_quantity
    with (s := test_service false) (req := mkRequest "valid-product" (-3))
         (w := test_World)
    as (o & err & Hw & Hprice & Hqty & Hpid & Hres & Hsign).
  - vm_compute. discriminate.
  - vm_compute. reflexivity.
  - vm_compute. discriminate.
  - vm_compute. reflexivity.
  - vm_compute in Hw. injection Hw as <- <-.
    do 3 eexists. split; [vm_compute; reflexivity|].
    split; [reflexivity|]. split; [reflexivity|].
    apply Hsign; [vm_compute; split; discriminate| |]; vm_compute; reflexivity.
Defined.

(** C9, as stated, fails: the catalog may report a negative unit price.
    For the product refund (unit price -10.0, none available) an order
    for minus two units is accepted, written and returned, and its total
    price is 20.0, which is greater than zero. *)
Lemma CreateOrder_negative_price_positive_total :
  let req := mkRequest "refund" (-2) in
  let product :=
    {| prod_ID := "refund"; Name := "Test"; Price := (-10)%float; Qty := 0 |} in
  req_Quantity req <= 0 /\
  (fetchProductInfo (test_service false) (req_ProductID req) test_World).1.1
    = (Some product, None) /\
  req_Quantity req <= Qty product /\
  exists o w' tr,
    CreateOrder (test_service false) req test_World = ((Some o, None), w', tr) /\
    calls is_store_write tr = [EvRepoCreate o None] /\
    TotalPrice o = (Price product * float64_of_int (req_Quantity req))%float /\
    TotalPrice o = 20%float /\
    (TotalPrice o <=? 0)%float = false.
Proof.
  cbn zeta. split; [vm_compute; discriminate|].
  split; [vm_compute; reflexivity|].
  split; [vm_compute; discriminate|].
  do 3 eexists. split; [vm_compute; reflexivity|].
  repeat split.
Qed.

(** A cached value that decodes only in part: [OrderCache.Get] returns
    the part and the error, and the service returns the part. *)
Lemma GetOrdersByProductID_stale_cache :
  OrderCache_Get (NewOrderCache world_Client)
                 (OrderCache_GetCacheKeyForProduct "valid-product") stale_World
    = ((Some [partial_Order], Some ErrUnmarshalType), stale_World) /\
  exists tr,
    GetOrdersByProductID cached_service "valid-product" stale_World
      = ((Some [partial_Order], None), stale_World, tr) /\
    calls is_store_call tr = [].
Proof.
  apply GetOrdersByProductID_partial_decode with (val := json_mistyped).
  - reflexivity.
  - vm_compute. reflexivity.
  - vm_compute. reflexivity.
Defined.

(** C7, at the input where code and claim part ways.  The value cached
    for the product decodes in part: the cache read returns an error, yet
    [GetOrdersByProductID] does not go on to the store as it does on a
    miss; it returns the partly decoded list, while the orders table holds
    the product's real order.  With nothing cached, the same call reads
    the table. *)
Theorem GetOrdersByProductID_cache_error_not_a_miss :
  (OrderCache_Get (NewOrderCache world_Client)
                  (OrderCache_GetCacheKeyForProduct "valid-product")
                  stale_World).1
    = (Some [partial_Order], Some ErrUnmarshalType) /\
  (exists w' tr,
     GetOrdersByProductID cached_service "valid-product" stale_World
       = ((Some [partial_Order], None), w', tr) /\
     calls is_store_call tr = []) /\
  (exists w' tr,
     GetOrdersByProductID cached_service "valid-product" stored_World
       = ((Some [sample_Order], None), w', tr) /\
     calls is_store_call tr
       = [EvRepoGetByProductID "valid-product" (Some [sample_Order]) None]).
Proof.
  split; [vm_compute; reflexivity|].
  split; do 2 eexists; (split; [vm_compute; reflexivity|reflexivity]).
Qed.

(** Redis is down: the probe fails, the orders table is read, the cache
    write fails as well, and the caller still gets the product's orders
    with no error. *)
Lemma GetOrdersByProductID_redis_down :
  exists w' tr,
    GetOrdersByProductID cached_service "valid-product" down_World
      = ((Some [sample_Order], None), w', tr) /\
    calls is_store_call tr
      = [EvRepoGetByProductID "valid-product" (Some [sample_Order]) None] /\
    calls is_cache_write tr
      = [EvCacheSet "orders:product:valid-product" (Some [sample_Order])
                    (Some ErrRedisDown)].
Proof.
  epose proof (GetOrdersByProductID_miss cached_service "valid-product"
                 down_World _ _ _ _ (Some ErrRedisDown)) as Hmiss.
  edestruct Hmiss as (orders & qerr & Hstore & Hres).
  - vm_compute. reflexivity.
  - in_trace.
  - vm_compute in Hstore. injection Hstore as <- <-.
    destruct Hres as (Hres & serr & Hset).
    vm_compute in Hset. injection Hset as <-.
    do 2 eexists. split; [vm_compute; reflexivity|]. split; reflexivity.
Defined.

(** One order written to the cache and read 60 seconds later: a miss. *)
Lemma OrderCache_Get_expired_sample :
  let c := NewOrderCache server_Client in
  let key := OrderCache_GetCacheKeyForProduct "valid-product" in
  let r1 := (OrderCache_Set c key (Some [sample_Order]) (redis test_World)).2 in
  OrderCache_Get c key (elapse (60 * Second) r1)
    = ((None, None), elapse (60 * Second) r1).
Proof.
  cbn zeta.
  apply OrderCache_Get_expired
    with (orders := Some [sample_Order]) (r := redis test_World).
  - vm_compute. reflexivity.
  - unfold cache_ttl, Second. lia.
Defined.

(* ===================================================================== *)
(** * Further properties *)
(* ===================================================================== *)

(** ** What one call does, and what it never does *)

Section Effects.
Context {W : Type} `{Runtime W}.
Variable s : OrderService W.

(** Every run of [CreateOrder] starts with one HTTP request to the
    product's URL and makes no other; it never calls the cache and never
    queries the store; it writes to the store at most once and publishes
    at most once. *)
Theorem CreateOrder_effects (req : CreateOrderRequest) (w : W) :
  let tr := (CreateOrder s req w).2 in
  (exists resp err,
     head tr = Some (EvHTTPGet (product_url s (req_ProductID req)) resp err) /\
     calls is_http tr = [EvHTTPGet (product_url s (req_ProductID req)) resp err]) /\
  calls is_cache_call tr = [] /\
  calls is_store_query tr = [] /\
  (length (calls is_store_write tr) <= 1)%nat /\
  (length (calls is_publish tr) <= 1)%nat.
Proof.
  cbn zeta. rewrite CreateOrder_run.
  destruct (fetchProductInfo s _ w) as [[[product err] w1] t1] eqn:Hf.
  destruct (fetchProductInfo_trace _ _ _ _ _ _ Hf) as (resp & herr & ->).
  destruct product as [product|], err as [err|];
    try solve [cbn; split; [eauto|]; repeat split; lia].
  destruct (Qty product <? req_Quantity req);
    [cbn; split; [eauto|]; repeat split; lia|].
  destruct (uuid_New_String w1) as [id w2], (time_Now w2) as [now w3].
  cbn zeta. destruct (Create (repo s) _ w3) as [[cerr|] w4].
  - cbn. split; [eauto|]. repeat split; lia.
  - destruct (PublishOrderCreated _ _ _ w4) as [perr w5].
    cbn. split; [eauto|]. repeat split; lia.
Qed.

(** A notification is sent only for an order the store has just accepted:
    in a run that publishes, the trace ends with the accepted write, the
    publish and one log line; nothing was written or published before;
    the order is the one returned; and the notification carries its
    product identifier and quantity. *)
Theorem CreateOrder_publish_after_write
    (req : CreateOrderRequest) (productId : string) (quantity : int)
    (perr : option error) (w w' : W) (tr : list Event) res :
  CreateOrder s req w = (res, w', tr) ->
  In (EvPublish productId quantity perr) tr ->
  exists o pre msg,
    tr = pre ++ [EvRepoCreate o None; EvPublish productId quantity perr;
                 EvLog msg] /\
    calls is_store_write pre = [] /\
    calls is_publish pre = [] /\
    res = (Some o, None) /\
    productId = ProductID o /\
    quantity = Quantity o.
Proof.
  intros Hrun Hin. rewrite CreateOrder_run in Hrun.
  destruct (fetchProductInfo s _ w) as [[[product err] w1] t1] eqn:Hf.
  destruct (fetchProductInfo_trace _ _ _ _ _ _ Hf) as (resp & herr & ->).
  destruct product as [product|], err as [err|]; try solve [no_such_event Hrun Hin].
  destruct (Qty product <? req_Quantity req); [no_such_event Hrun Hin|].
  destruct (uuid_New_String w1) as [id w2], (time_Now w2) as [now w3].
  cbn zeta in Hrun.
  destruct (Create (repo s) _ w3) as [[cerr|] w4]; [no_such_event Hrun Hin|].
  destruct (PublishOrderCreated _ _ _ w4) as [perr' w5].
  injection Hrun as <- <- <-. cbn in Hin.
  repeat (destruct Hin as [Hin|Hin]; try discriminate); [|contradiction].
  injection Hin as <- <- <-.
  eexists _, [_; _; _], _. split; [reflexivity|]. repeat split.
Qed.

(** Whatever the store answers, an order reaches it only after a
    successful lookup that reported enough stock, and the order is built
    from that lookup: total, status, product and quantity as in the
    request, the identifier and the creation time drawn in this run. *)
Theorem CreateOrder_written_order
    (req : CreateOrderRequest) (o : Order) (cerr : option error)
    (w w' : W) (tr : list Event) res :
  CreateOrder s req w = (res, w', tr) ->
  In (EvRepoCreate o cerr) tr ->
  exists product,
    (fetchProductInfo s (req_ProductID req) w).1.1 = (Some product, None) /\
    req_Quantity req <= Qty product /\
    TotalPrice o = (Price product * float64_of_int (req_Quantity req))%float /\
    Status o = "PENDING" /\
    ProductID o = req_ProductID req /\
    Quantity o = req_Quantity req /\
    In (EvUUID (ID o)) tr /\
    In (EvNow (CreatedAt o)) tr.
Proof.
  intros Hrun Hin. rewrite CreateOrder_run in Hrun.
  destruct (fetchProductInfo s _ w) as [[[product err] w1] t1] eqn:Hf.
  destruct (fetchProductInfo_trace _ _ _ _ _ _ Hf) as (resp & herr & ->).
  destruct product as [product|], err as [err|]; try solve [no_such_event Hrun Hin].
  destruct (Z.ltb_spec (Qty product) (req_Quantity req));
    [no_such_event Hrun Hin|].
  destruct (uuid_New_String w1) as [id w2], (time_Now w2) as [now w3].
  cbn zeta in Hrun. exists product. split; [reflexivity|]. split; [lia|].
  destruct (Create (repo s) _ w3) as [[cerr'|] w4].
  - injection Hrun as <- <- <-. cbn in Hin.
    repeat (destruct Hin as [Hin|Hin]; try discriminate); [|contradiction].
    injection Hin as <- <-. cbn. repeat split; auto.
  - destruct (PublishOrderCreated _ _ _ w4) as [perr w5].
    injection Hrun as <- <- <-. cbn in Hin.
    repeat (destruct Hin as [Hin|Hin]; try discriminate); [|contradiction].
    injection Hin as <- <-. cbn. repeat split; auto.
Qed.

(** Every run of [GetOrdersByProductID] starts with one cache probe under
    the product's key and makes no other; it never writes to the store,
    never publishes, makes no HTTP request and draws no identifier or
    time; it queries the store at most once and writes the cache at most
    once. *)
Theorem GetOrdersByProductID_effects (productID : string) (w : W) :
  let tr := (GetOrdersByProductID s productID w).2 in
  let key := GetCacheKeyForProduct (cache s) productID in
  (exists cached err,
     head tr = Some (EvCacheGet key cached err) /\
     calls is_cache_read tr = [EvCacheGet key cached err]) /\
  calls is_store_write tr = [] /\
  calls is_publish tr = [] /\
  calls is_http tr = [] /\
  calls is_fresh_value tr = [] /\
  (length (calls is_store_query tr) <= 1)%nat /\
  (length (calls is_cache_write tr) <= 1)%nat.
Proof.
  cbn zeta. rewrite GetOrdersByProductID_run. cbn zeta.
  destruct (Get (cache s) _ w) as [[cached err] w1].
  destruct cached as [l|].
  - destruct err; cbn; (split; [eauto|]); repeat split; lia.
  - destruct (GetByProductID (repo s) productID w1) as [[orders qerr] w2].
    destruct qerr as [qerr|].
    + destruct err; cbn; (split; [eauto|]); repeat split; lia.
    + destruct (Set_ (cache s) _ orders w2) as [serr w3].
      destruct err, serr; cbn; (split; [eauto|]); repeat split; lia.
Qed.

(** The only error [GetOrdersByProductID] returns is the one the store
    query returned: it then comes with a nil list, and the cache is not
    written.  No error of the cache reaches the caller. *)
Theorem GetOrdersByProductID_error (productID : string) (e : error)
    (w w' : W) (tr : list Event) (orders : slice Order) :
  GetOrdersByProductID s productID w = ((orders, Some e), w', tr) ->
  orders = None /\
  (exists found, In (EvRepoGetByProductID productID found (Some e)) tr) /\
  calls is_cache_write tr = [].
Proof.
  intros Hrun. rewrite GetOrdersByProductID_run in Hrun. cbn zeta in Hrun.
  destruct (Get (cache s) _ w) as [[cached err] w1].
  destruct cached as [l|]; [discriminate|].
  destruct (GetByProductID (repo s) productID w1) as [[found qerr] w2].
  destruct qerr as [qerr|].
  - injection Hrun as <- <- <- <-. split; [reflexivity|].
    split; [exists found|]; destruct err; cbn; auto.
  - destruct (Set_ (cache s) _ found w2) as [serr w3]. discriminate.
Qed.

End Effects.

(** ** The catalog lookup *)

Section Lookup.
Context {W : Type} `{Runtime W}.
Variable s : OrderService W.

(** [fetchProductInfo] returns a product and no error, or no product and
    an error, and the second happens exactly in the three cases of
    [catalog_lookup_fails]: there is no other way for the lookup to fail,
    and none of the three lets a product through. *)
Theorem fetchProductInfo_outcome (productID : string) (w : W) :
  let r := (fetchProductInfo s productID w).1.1 in
  ((exists product, r = (Some product, None)) /\
   ~ catalog_lookup_fails (product_url s productID) w) \/
  ((exists e, r = (None, Some e)) /\
   catalog_lookup_fails (product_url s productID) w).
Proof.
  cbn zeta. pose proof (fetchProductInfo_run s productID w) as Hrun.
  cbn zeta in Hrun.
  destruct (http_Get _ w) as [[resp err] w1] eqn:Hget.
  destruct Hrun as (r & -> & [(product & -> & -> & Hst & Hd)|(e & -> & Hwhy)]);
    cbn [fst snd].
  - left. split; [eauto|]. intros Hfail.
    destruct Hfail as [? ? ? Hg|? ? Hg Hne|? ? ? ? Hg _ Hd'];
      rewrite Hget in Hg; try discriminate; injection Hg as <- <-.
    + contradiction.
    + rewrite Hd in Hd'. discriminate.
  - right. split; [eauto|].
    destruct Hwhy as [Herr|[Hst|(product & e' & Hd)]].
    + destruct err as [err|]; [|contradiction].
      eapply transport_failure. exact Hget.
    + destruct err as [err|].
      * eapply transport_failure. exact Hget.
      * eapply non_success_status; eassumption.
    + destruct err as [err|].
      * eapply transport_failure. exact Hget.
      * destruct (Z.eq_dec (resp_StatusCode resp) http_StatusOK).
        -- eapply malformed_body; eassumption.
        -- eapply non_success_status; eassumption.
Qed.

End Lookup.

(** ** Totals of ordinary orders *)

Lemma float64_of_int_nonneg (q : Z) :
  0 <= q <= int_max ->
  finite_or_zero (Prim2SF (float64_of_int q)) /\
  signed false (Prim2SF (float64_of_int q)).
Proof.
  intros Hq. unfold float64_of_int, int_max in *.
  destruct (Z.leb_spec 0 q); [|lia].
  rewrite of_uint63_spec, Uint63.of_Z_spec.
  change Uint63.wB with (2 ^ 63). rewrite Z.mod_small by lia.
  apply binary_normalize_finite. lia.
Qed.

(** A finite, non-negative price times a non-negative quantity is not NaN
    and not below zero (it is infinite when the product overflows). *)
Lemma mul_nonneg_nonneg (p : float) (q : Z) :
  (0 <=? p)%float = true -> (p <? infinity)%float = true ->
  0 <= q <= int_max ->
  (0 <=? p * float64_of_int q)%float = true.
Proof.
  intros Hp Hfin Hq.
  pose proof (nonneg_finite_class p Hp Hfin) as Hcp.
  destruct (float64_of_int_nonneg q Hq) as [Hfq Hsq].
  rewrite leb_spec, mul_spec, Prim2SF_zero. unfold SF64mul.
  destruct (Prim2SF p) as [sp|sp| |sp mp ep]; try contradiction;
    destruct (Prim2SF (float64_of_int q)) as [sq|sq| |sq mq eq];
    try contradiction; try reflexivity.
  destruct sp; [contradiction|]. cbn in Hsq. subst sq.
  cbn [SFmul xorb].
  pose proof (binary_round_aux_signed prec emax false (Zpos (mp * mq)) (ep + eq)
                loc_Exact ltac:(lia)) as Hs.
  destruct (binary_round_aux prec emax false _ _ _) as [s|s| |s m e];
    cbn in Hs; try contradiction; subst; reflexivity.
Qed.

Section Totals.
Context {W : Type} `{Runtime W}.
Variable s : OrderService W.

(** When the catalog's unit price is finite and not negative and the
    requested quantity is not negative, the total of the order handed to
    the store is not NaN and not negative. *)
Theorem CreateOrder_total_nonnegative
    (req : CreateOrderRequest) (product : ProductResponse) (o : Order)
    (cerr : option error) (w w' : W) (tr : list Event) res :
  (fetchProductInfo s (req_ProductID req) w).1.1 = (Some product, None) ->
  (0 <=? Price product)%float = true ->
  (Price product <? infinity)%float = true ->
  0 <= req_Quantity req <= int_max ->
  CreateOrder s req w = (res, w', tr) ->
  In (EvRepoCreate o cerr) tr ->
  (0 <=? TotalPrice o)%float = true.
Proof.
  intros Hfetch Hp Hfin Hq Hrun Hin. rewrite CreateOrder_run in Hrun.
  destruct (fetchProductInfo s _ w) as [[[product' err] w1] t1] eqn:Hf.
  destruct (fetchProductInfo_trace _ _ _ _ _ _ Hf) as (resp & herr & ->).
  cbn [fst snd] in Hfetch. injection Hfetch as -> ->.
  destruct (Qty product <? req_Quantity req); [no_such_event Hrun Hin|].
  destruct (uuid_New_String w1) as [id w2], (time_Now w2) as [now w3].
  cbn zeta in Hrun.
  destruct (Create (repo s) _ w3) as [[cerr'|] w4].
  - injection Hrun as <- <- <-. cbn in Hin.
    repeat (destruct Hin as [Hin|Hin]; try discriminate); [|contradiction].
    injection Hin as <- <-. cbn [TotalPrice]. now apply mul_nonneg_nonneg.
  - destruct (PublishOrderCreated _ _ _ w4) as [perr w5].
    injection Hrun as <- <- <-. cbn in Hin.
    repeat (destruct Hin as [Hin|Hin]; try discriminate); [|contradiction].
    injection Hin as <- <-. cbn [TotalPrice]. now apply mul_nonneg_nonneg.
Qed.

End Totals.

(** ** Cache keys *)

Lemma append_inj_r (p a b : string) : p +:+ a = p +:+ b -> a = b.
Proof.
  induction p as [|c p IH]; cbn; [auto|]. intros [= Heq]. auto.
Qed.

(** Two products share a cache key only when they are the same product,
    and every key lies in the namespace [orders:product:]. *)
Theorem OrderCache_key_injective (p1 p2 : string) :
  (OrderCache_GetCacheKeyForProduct p1 = OrderCache_GetCacheKeyForProduct p2
   <-> p1 = p2) /\
  strip_prefix "orders:product:" (OrderCache_GetCacheKeyForProduct p1) = Some p1.
Proof.
  split; [split|].
  - apply append_inj_r.
  - intros ->. reflexivity.
  - reflexivity.
Qed.

(** ** Reading through the Redis-backed cache *)

Section ReadThrough.
Context `{OrdersJSON}.

Lemma server_Get_readonly (key : string) (r : RedisServer) :
  (server_Get key r).2 = r.
Proof.
  unfold server_Get. destruct (reachable r); cbn [negb]; [|reflexivity].
  destruct (entries r !! key) as [[val deadline]|]; [|reflexivity].
  destruct (clock r <? deadline); reflexivity.
Qed.

Lemma world_eta (w : World) :
  {| uuids := uuids w; wall := wall w; redis := redis w; rows := rows w |} = w.
Proof. destruct w; reflexivity. Qed.

(** On the world, the cache reads and writes the world's Redis server and
    nothing else. *)
Lemma OrderCache_Get_world (key : string) (w : World) :
  OrderCache_Get (NewOrderCache world_Client) key w
  = ((OrderCache_Get (NewOrderCache server_Client) key (redis w)).1, w).
Proof.
  unfold OrderCache_Get.
  cbn [client NewOrderCache redis_Get world_Client server_Client on_redis].
  unfold on_redis. pose proof (server_Get_readonly key (redis w)) as Hro.
  destruct (server_Get key (redis w)) as [[val err] r1]. cbn [snd] in Hro.
  subst r1. rewrite world_eta.
  destruct err as [err|]; [destruct (is_redis_Nil err)|]; reflexivity.
Qed.

Lemma OrderCache_Set_world (key : string) (orders : slice Order) (w : World) :
  OrderCache_Set (NewOrderCache world_Client) key orders w
  = ((OrderCache_Set (NewOrderCache server_Client) key orders (redis w)).1,
     {| uuids := uuids w; wall := wall w;
        redis := (OrderCache_Set (NewOrderCache server_Client) key orders
                    (redis w)).2;
        rows := rows w |}).
Proof.
  unfold OrderCache_Set.
  cbn [client NewOrderCache redis_Set world_Client server_Client on_redis].
  destruct (json_Marshal orders) as [val [err|]]; cbn [fst snd].
  - rewrite world_eta. reflexivity.
  - unfold on_redis. destruct (server_Set key val cache_ttl (redis w)).
    reflexivity.
Qed.

(** A value stored under a key is what [Get] decodes until its deadline;
    from the deadline on, and for a key that holds nothing, [Get] reports
    a miss. *)
Lemma OrderCache_Get_stored (key val : string) (deadline : Time)
    (r : RedisServer) :
  reachable r = true ->
  entries r !! key = Some (val, deadline) ->
  OrderCache_Get (NewOrderCache server_Client) key r
  = (if clock r <? deadline then json_Unmarshal val else (None, None), r).
Proof.
  intros Hup Hentry. unfold OrderCache_Get.
  cbn [client NewOrderCache redis_Get server_Client].
  unfold server_Get, Time in *.
  rewrite Hup, Hentry. cbn [negb].
  destruct (clock r <? deadline); reflexivity.
Qed.

(** What the trace of a read says about the cache write it made. *)
Lemma GetOrdersByProductID_cache_write (s : OrderService World)
    (productID key : string) (orders : slice Order) (serr : option error)
    (w w1 : World) res tr :
  GetOrdersByProductID s productID w = (res, w1, tr) ->
  In (EvCacheSet key orders serr) tr ->
  key = GetCacheKeyForProduct (cache s) productID /\
  res = (orders, None) /\
  exists w0, Set_ (cache s) key orders w0 = (serr, w1).
Proof.
  intros Hrun Hin. rewrite GetOrdersByProductID_run in Hrun. cbn zeta in Hrun.
  destruct (Get (cache s) _ w) as [[cached err] w0].
  destruct cached as [l|].
  { injection Hrun as <- <- <-.
    destruct err; cbn in Hin;
      repeat (destruct Hin as [Hin|Hin]; try discriminate); contradiction. }
  destruct (GetByProductID (repo s) productID w0) as [[found qerr] w2].
  destruct qerr as [qerr|].
  { injection Hrun as <- <- <-.
    destruct err; cbn in Hin;
      repeat (destruct Hin as [Hin|Hin]; try discriminate); contradiction. }
  destruct (Set_ (cache s) _ found w2) as [serr' w3] eqn:Hset.
  injection Hrun as <- <- <-.
  assert (Hev : EvCacheSet (GetCacheKeyForProduct (cache s) productID) found serr'
                = EvCacheSet key orders serr).
  { destruct err, serr'; cbn in Hin;
      repeat (destruct Hin as [Hin|Hin]; try discriminate);
      try contradiction; assumption. }
  injection Hev as <- <- <-. eauto.
Qed.

(** The state of Redis after a read that wrote the cache successfully. *)
Lemma GetOrdersByProductID_cached (s : OrderService World)
    (productID key : string) (orders : slice Order)
    (w w1 : World) res tr :
  cache s = OrderCache_IOrderCache (NewOrderCache world_Client) ->
  GetOrdersByProductID s productID w = (res, w1, tr) ->
  In (EvCacheSet key orders None) tr ->
  key = OrderCache_GetCacheKeyForProduct productID /\
  res = (orders, None) /\
  reachable (redis w1) = true /\
  exists t, clock (redis w1) = t /\
    entries (redis w1) !! key = Some ((json_Marshal orders).1, t + cache_ttl).
Proof.
  intros Hc Hrun Hin.
  destruct (GetOrdersByProductID_cache_write _ _ _ _ _ _ _ _ _ Hrun Hin)
    as (-> & -> & w0 & Hset).
  rewrite Hc in Hset |- *.
  cbn [GetCacheKeyForProduct Set_ OrderCache_IOrderCache] in Hset |- *.
  rewrite OrderCache_Set_world in Hset.
  destruct (OrderCache_Set (NewOrderCache server_Client) _ orders (redis w0))
    as [e r1] eqn:Hs.
  cbn [fst snd] in Hset. injection Hset as -> <-. cbn [redis].
  destruct (OrderCache_Set_stored _ _ _ _ Hs) as (_ & Hup & Hclock & Hentry).
  repeat split; [assumption|]. exists (clock r1).
  split; [reflexivity|]. rewrite Hclock. exact Hentry.
Qed.

Variable s : OrderService World.

(** Once a read has written a non-nil list to the cache, every read of the
    same product in the next 60 seconds returns that list without calling
    the store, whatever has happened to the rest of the world since: the
    orders table may have changed.  (The decoder is assumed to invert the
    encoder on the list.) *)
Theorem GetOrdersByProductID_read_through
    (productID key : string) (l : list Order) (w w1 : World) res tr :
  cache s = OrderCache_IOrderCache (NewOrderCache world_Client) ->
  GetOrdersByProductID s productID w = (res, w1, tr) ->
  In (EvCacheSet key (Some l) None) tr ->
  json_Unmarshal (json_Marshal (Some l)).1 = (Some l, None) ->
  res = (Some l, None) /\
  forall (w2 : World) (d : Duration),
    0 <= d < cache_ttl ->
    redis w2 = elapse d (redis w1) ->
    exists tr2,
      GetOrdersByProductID s productID w2 = ((Some l, None), w2, tr2) /\
      calls is_store_call tr2 = [].
Proof.
  intros s_cache Hrun Hin Hcodec.
  destruct (GetOrdersByProductID_cached _ _ _ _ _ _ _ _ s_cache Hrun Hin)
    as (-> & -> & Hup & t & Ht & Hentry).
  split; [reflexivity|]. intros w2 d Hd Hredis.
  rewrite GetOrdersByProductID_run, s_cache.
  cbn [GetCacheKeyForProduct Get OrderCache_IOrderCache].
  rewrite OrderCache_Get_world, Hredis.
  rewrite (OrderCache_Get_stored _ _ (t + cache_ttl) (elapse d (redis w1))
             Hup Hentry).
  cbn [elapse clock fst]. rewrite Ht.
  destruct (Z.ltb_spec (t + d) (t + cache_ttl)); [|lia].
  rewrite Hcodec. eexists. split; reflexivity.
Qed.

(** From the 60th second on, the cached list is gone: the next read of
    the product finds nothing in the cache and queries the store. *)
Theorem GetOrdersByProductID_refresh
    (productID key : string) (orders : slice Order) (w w1 w2 : World)
    (d : Duration) res tr res2 w3 tr2 :
  cache s = OrderCache_IOrderCache (NewOrderCache world_Client) ->
  GetOrdersByProductID s productID w = (res, w1, tr) ->
  In (EvCacheSet key orders None) tr ->
  cache_ttl <= d ->
  redis w2 = elapse d (redis w1) ->
  GetOrdersByProductID s productID w2 = (res2, w3, tr2) ->
  head tr2 = Some (EvCacheGet key None None) /\
  exists found qerr,
    calls is_store_call tr2 = [EvRepoGetByProductID productID found qerr].
Proof.
  intros s_cache Hrun Hin Hd Hredis Hrun2.
  destruct (GetOrdersByProductID_cached _ _ _ _ _ _ _ _ s_cache Hrun Hin)
    as (-> & -> & Hup & t & Ht & Hentry).
  rewrite GetOrdersByProductID_run, s_cache in Hrun2.
  cbn [GetCacheKeyForProduct Get OrderCache_IOrderCache] in Hrun2.
  rewrite OrderCache_Get_world, Hredis in Hrun2.
  rewrite (OrderCache_Get_stored _ _ (t + cache_ttl) (elapse d (redis w1))
             Hup Hentry) in Hrun2.
  cbn [elapse clock fst] in Hrun2. rewrite Ht in Hrun2.
  destruct (Z.ltb_spec (t + d) (t + cache_ttl)); [lia|].
  rewrite <- s_cache in Hrun2.
  destruct (GetByProductID (repo s) productID w2) as [[found qerr] w4].
  destruct qerr as [qerr|].
  - injection Hrun2 as <- <- <-. split; [reflexivity|]. eauto.
  - destruct (Set_ (cache s) _ found w4) as [serr w5].
    injection Hrun2 as <- <- <-. split; [reflexivity|].
    exists found, None. destruct serr; reflexivity.
Qed.

(** A nil list from the store is written to the cache like any other, but
    it is never served from it: when the decoder gives nil back for what
    the encoder made of nil, the next read of the product finds a nil
    list in the cache, takes it for a miss and queries the store again,
    however soon it comes. *)
Theorem GetOrdersByProductID_nil_not_cached
    (productID key : string) (w w1 w2 : World)
    (d : Duration) res tr res2 w3 tr2 :
  cache s = OrderCache_IOrderCache (NewOrderCache world_Client) ->
  GetOrdersByProductID s productID w = (res, w1, tr) ->
  In (EvCacheSet key None None) tr ->
  json_Unmarshal (json_Marshal None).1 = (None, None) ->
  0 <= d ->
  redis w2 = elapse d (redis w1) ->
  GetOrdersByProductID s productID w2 = (res2, w3, tr2) ->
  res = (None, None) /\
  head tr2 = Some (EvCacheGet key None None) /\
  exists found qerr,
    calls is_store_call tr2 = [EvRepoGetByProductID productID found qerr].
Proof.
  intros s_cache Hrun Hin Hcodec Hd Hredis Hrun2.
  destruct (GetOrdersByProductID_cached _ _ _ _ _ _ _ _ s_cache Hrun Hin)
    as (-> & -> & Hup & t & Ht & Hentry).
  split; [reflexivity|].
  rewrite GetOrdersByProductID_run, s_cache in Hrun2.
  cbn [GetCacheKeyForProduct Get OrderCache_IOrderCache] in Hrun2.
  rewrite OrderCache_Get_world, Hredis in Hrun2.
  rewrite (OrderCache_Get_stored _ _ (t + cache_ttl) (elapse d (redis w1))
             Hup Hentry) in Hrun2.
  rewrite Hcodec in Hrun2.
  match type of Hrun2 with
  | context [if ?b then _ else _] => destruct b
  end; cbn [fst] in Hrun2.
  all: rewrite <- s_cache in Hrun2.
  all: destruct (GetByProductID (repo s) productID w2) as [[found qerr] w4].
  all: destruct qerr as [qerr|];
    [injection Hrun2 as <- <- <-; split; [reflexivity|]; eauto|].
  all: destruct (Set_ (cache s) _ found w4) as [serr w5].
  all: injection Hrun2 as <- <- <-; split; [reflexivity|].
  all: exists found, None; destruct serr; reflexivity.
Qed.

End ReadThrough.

(** ** One product's cache entry and another's *)

Section CacheFrame.
Context `{OrdersJSON}.

Lemma OrderCache_Get_readonly (key : string) (r : RedisServer) :
  OrderCache_Get (NewOrderCache server_Client) key r
  = ((OrderCache_Get (NewOrderCache server_Client) key r).1, r).
Proof.
  unfold OrderCache_Get. cbn [client NewOrderCache redis_Get server_Client].
  pose proof (server_Get_readonly key r) as Hro.
  destruct (server_Get key r) as [[val err] r1]. cbn [snd] in Hro. subst r1.
  destruct err as [err|]; [destruct (is_redis_Nil err)|]; reflexivity.
Qed.

(** [Get] looks at the server's availability, its clock and the entry
    under the key, and at nothing else. *)
Lemma OrderCache_Get_depends (key : string) (r r' : RedisServer) :
  reachable r = reachable r' ->
  clock r = clock r' ->
  entries r !! key = entries r' !! key ->
  (OrderCache_Get (NewOrderCache server_Client) key r).1
  = (OrderCache_Get (NewOrderCache server_Client) key r').1.
Proof.
  intros Hup Hclock Hentry. unfold OrderCache_Get.
  cbn [client NewOrderCache redis_Get server_Client].
  unfold server_Get, Time in *. rewrite Hup, Hclock, Hentry.
  destruct (reachable r'); cbn [negb]; [|reflexivity].
  match goal with
  | |- context [match ?x with Some _ => _ | None => _ end] =>
      destruct x as [[val deadline]|]
  end; [|reflexivity].
  destruct (clock r' <? deadline); reflexivity.
Qed.

(** Writing the list of one product leaves what the cache answers for any
    other product as it was; and a write that fails, for whatever reason,
    leaves what it answers for every product as it was. *)
Theorem OrderCache_Set_frame (p1 p2 : string) (orders : slice Order)
    (e : option error) (r r1 : RedisServer) (d : Duration) :
  OrderCache_Set (NewOrderCache server_Client)
                 (OrderCache_GetCacheKeyForProduct p1) orders r = (e, r1) ->
  p1 <> p2 \/ e <> None ->
  OrderCache_Get (NewOrderCache server_Client)
                 (OrderCache_GetCacheKeyForProduct p2) (elapse d r1)
  = ((OrderCache_Get (NewOrderCache server_Client)
                     (OrderCache_GetCacheKeyForProduct p2) (elapse d r)).1,
     elapse d r1).
Proof.
  intros Hset Hwhy. rewrite OrderCache_Get_readonly. f_equal.
  unfold OrderCache_Set in Hset.
  cbn [client NewOrderCache redis_Set server_Client] in Hset.
  destruct (json_Marshal orders) as [val [merr|]].
  { injection Hset as <- <-. reflexivity. }
  unfold server_Set in Hset. destruct (reachable r) eqn:Hup; cbn [negb] in Hset.
  2:{ injection Hset as <- <-. reflexivity. }
  injection Hset as <- <-. destruct Hwhy as [Hne|Hne]; [|contradiction].
  apply OrderCache_Get_depends; cbn [elapse reachable clock entries]; auto.
  apply lookup_insert_ne. intros Heq. apply Hne.
  unfold OrderCache_GetCacheKeyForProduct in Heq.
  now apply append_inj_r in Heq.
Qed.

End CacheFrame.

(** ** The publisher on the broker *)

Section Publisher.
Context `{EventJSON}.

Lemma messages_insert (name name' : string) (msgs : list amqp_Publishing)
    (b : Broker) :
  messages name' {| queues := <[name := msgs]> (queues b);
                    channel_open := channel_open b |}
  = if decide (name = name') then msgs else messages name' b.
Proof.
  unfold messages. cbn [queues]. destruct (decide (name = name')) as [->|Hne].
  - rewrite lookup_insert_eq. reflexivity.
  - rewrite lookup_insert_ne by assumption. reflexivity.
Qed.

(** One call on an open channel, step by step. *)
Lemma PublishOrderCreated_open (productId : string) (quantity : int)
    (b : Broker) :
  channel_open b = true ->
  exists b1,
    RabbitMQPublisher_PublishOrderCreated broker_Publisher productId quantity b
    = (match (json_Marshal_event productId quantity).2 with
       | Some err => Some (fmt_Errorf_w "failed to marshal event: " err)
       | None => None
       end, b1) /\
    channel_open b1 = true /\
    (forall name, name <> "order.created" ->
       queues b1 !! name = queues b !! name) /\
    messages "order.created" b1
    = messages "order.created" b ++
      match (json_Marshal_event productId quantity).2 with
      | Some _ => []
      | None => [order_created_message (productId, quantity)]
      end.
Proof.
  intros Hopen. unfold RabbitMQPublisher_PublishOrderCreated.
  cbn [channel broker_Publisher NewRabbitMQPublisher QueueDeclare Publish
       broker_Channel].
  unfold broker_QueueDeclare, order_created_message. rewrite Hopen.
  cbn [negb fst snd].
  destruct (queues b !! "order.created") as [msgs|] eqn:Hq;
    cbn [queue_Name];
    destruct (json_Marshal_event productId quantity) as [body [merr|]];
    cbn [fst snd].
  - exists b. rewrite app_nil_r. auto.
  - unfold broker_Publish. rewrite Hopen, Hq. cbn [negb String.eqb].
    eexists. split; [reflexivity|]. cbn [channel_open queues].
    split; [first [assumption|reflexivity]|]. split.
    + intros name Hne. now rewrite lookup_insert_ne by auto.
    + unfold messages. cbn [queues]. rewrite lookup_insert_eq, Hq. reflexivity.
  - eexists. split; [reflexivity|]. cbn [channel_open queues].
    split; [first [assumption|reflexivity]|]. split.
    + intros name Hne. now rewrite lookup_insert_ne by auto.
    + unfold messages. cbn [queues]. rewrite lookup_insert_eq, Hq. reflexivity.
  - unfold broker_Publish. cbn [channel_open queues]. rewrite ?Hopen.
    cbn [negb String.eqb]. rewrite lookup_insert_eq.
    eexists. split; [reflexivity|]. cbn [channel_open queues].
    split; [first [assumption|reflexivity]|]. split.
    + intros name Hne. now rewrite !lookup_insert_ne by auto.
    + unfold messages. cbn [queues]. rewrite lookup_insert_eq, Hq. reflexivity.
Qed.

(** On an open channel, an event that encodes is delivered: the call
    returns nil, the queue order.created (declared on the way when it did
    not exist) holds one more message at its tail, of content type
    application/json with the encoded event as its body, and every other
    queue is as it was. *)
Theorem PublishOrderCreated_delivers (productId : string) (quantity : int)
    (body : string) (b : Broker) :
  channel_open b = true ->
  json_Marshal_event productId quantity = (body, None) ->
  exists b1,
    RabbitMQPublisher_PublishOrderCreated broker_Publisher productId quantity b
    = (None, b1) /\
    messages "order.created" b1
    = messages "order.created" b ++
      [{| ContentType := "application/json"; Body := body |}] /\
    (forall name, name <> "order.created" ->
       queues b1 !! name = queues b !! name) /\
    channel_open b1 = true.
Proof.
  intros Hopen Hm.
  destruct (PublishOrderCreated_open productId quantity b Hopen)
    as (b1 & Hrun & Hopen1 & Hothers & Hmsgs).
  unfold order_created_message in Hmsgs. cbn [fst snd] in Hmsgs.
  rewrite Hm in Hrun, Hmsgs. cbn [fst snd] in Hrun, Hmsgs. exists b1. auto.
Qed.

(** A call that returns an error has delivered nothing: every queue holds
    the messages it held before.  The error tells the three causes apart.
    When the queue cannot be declared, it wraps the channel's error behind
    "failed to declare a queue: "; when the event does not encode, it wraps
    the encoder's error behind "failed to marshal event: "; when the
    channel is lost after the queue was declared, it is the error of
    [Publish] as it is, not wrapped. *)
Theorem PublishOrderCreated_failure (productId : string) (quantity : int)
    (e : error) (l l1 : Link) :
  RabbitMQPublisher_PublishOrderCreated link_Publisher productId quantity l
  = (Some e, l1) ->
  (forall name, messages name (link_broker l1) = messages name (link_broker l)) /\
  ((serves l = false /\
    e = fmt_Errorf_w "failed to declare a queue: " ErrChannelClosed) \/
   (serves l = true /\
    exists cause,
      (json_Marshal_event productId quantity).2 = Some cause /\
      e = fmt_Errorf_w "failed to marshal event: " cause) \/
   (serves l = true /\
    (json_Marshal_event productId quantity).2 = None /\
    lifetime l = 1%nat /\
    e = ErrChannelClosed /\ errors_Unwrap e = None)).
Proof.
  unfold RabbitMQPublisher_PublishOrderCreated, serves.
  cbn [channel link_Publisher NewRabbitMQPublisher QueueDeclare Publish
       link_Channel].
  destruct l as [b n]. unfold on_link. cbn [lifetime link_broker].
  destruct n as [|n].
  - cbn. intros Heq; injection Heq as <- <-. cbn. auto.
  - unfold broker_QueueDeclare. destruct (channel_open b) eqn:Hopen; cbn [negb].
    2:{ intros Heq; injection Heq as <- <-. cbn. auto. }
    assert (Hdecl : forall name,
              messages name {| queues := <["order.created" := []]> (queues b);
                               channel_open := true |}
              = if decide ("order.created" = name) then [] else messages name b).
    { intros name. rewrite <- Hopen. apply messages_insert. }
    destruct (queues b !! "order.created") as [msgs|] eqn:Hq;
      cbn [queue_Name fst snd lifetime link_broker];
      destruct (json_Marshal_event productId quantity) as [body [merr|]];
      cbn [fst snd].
    + intros Heq; injection Heq as <- <-. cbn. split; [reflexivity|]. right; left. eauto.
    + destruct n as [|n].
      * cbn. intros Heq; injection Heq as <- <-. cbn. split; [reflexivity|].
        right; right. auto.
      * unfold broker_Publish. rewrite Hopen, Hq. cbn. discriminate.
    + intros Heq; injection Heq as <- <-. cbn [link_broker]. split.
      * intros name. rewrite Hdecl. destruct (decide _) as [<-|]; [|reflexivity].
        unfold messages. now rewrite Hq.
      * right; left. eauto.
    + destruct n as [|n].
      * cbn. intros Heq; injection Heq as <- <-. cbn [link_broker]. split.
        -- intros name. unfold messages, close. cbn [queues].
           destruct (decide ("order.created" = name)) as [<-|Hne].
           ++ now rewrite lookup_insert_eq, Hq.
           ++ now rewrite lookup_insert_ne.
        -- right; right. auto.
      * unfold broker_Publish. cbn [channel_open queues].
        cbn [negb String.eqb]. rewrite lookup_insert_eq. discriminate.
Qed.

(** Events published one after the other on an open channel, each of
    which encodes, all return nil and reach the queue in the order of the
    calls, behind the messages that were waiting. *)
Theorem publish_all_in_order (events : list (string * int)) :
  forall b : Broker,
    channel_open b = true ->
    Forall (fun ev => (json_Marshal_event ev.1 ev.2).2 = None) events ->
    Forall (fun err => err = None) (publish_all events b).1 /\
    length (publish_all events b).1 = length events /\
    messages "order.created" (publish_all events b).2
    = messages "order.created" b ++ map order_created_message events /\
    channel_open (publish_all events b).2 = true.
Proof.
  induction events as [|[productId quantity] rest IH]; intros b Hopen Hall.
  - cbn. rewrite app_nil_r. auto.
  - inversion Hall as [|ev evs Hev Hrest]; subst. cbn [fst snd] in Hev.
    destruct (PublishOrderCreated_open productId quantity b Hopen)
      as (b1 & Hrun & Hopen1 & _ & Hmsgs).
    rewrite Hev in Hrun, Hmsgs. cbn [publish_all]. rewrite Hrun.
    destruct (IH b1 Hopen1 Hrest) as (Herrs & Hlen & Hq & Hopen2).
    destruct (publish_all rest b1) as [errs b2]. cbn [fst snd] in *.
    split; [constructor; auto|]. split; [cbn; lia|]. split; [|assumption].
    rewrite Hq, Hmsgs, <- app_assoc. reflexivity.
Qed.

End Publisher.

(** ** The repository on the orders table *)

Section Table.
Context {rt : Runtime Database} {codec : OrdersJSON}.
Variable scan : list Order -> list Order.

(** A cache read leaves the table and the database as they are. *)
Lemma OrderCache_Get_database (key : string) (d d' : Database) r :
  OrderCache_Get (NewOrderCache database_Client) key d = (r, d') ->
  rows (db_world d') = rows (db_world d) /\ db_up d' = db_up d.
Proof.
  unfold OrderCache_Get.
  cbn [client NewOrderCache redis_Get database_Client world_Client].
  unfold on_world, on_redis.
  destruct (server_Get key (redis (db_world d))) as [[val [err|]] r1].
  - destruct (is_redis_Nil err); intros [= <- <-]; auto.
  - intros [= <- <-]. auto.
Qed.

(** An accepted write puts the order at the end of the table; the order
    carries the request's product identifier. *)
Lemma CreateOrder_inserted (req : CreateOrderRequest) (o : Order)
    (d d1 : Database) (tr : list Event) :
  CreateOrder (table_service scan) req d = ((Some o, None), d1, tr) ->
  exists earlier,
    rows (db_world d1) = earlier ++ [o] /\
    has_key (ID o) earlier = false /\
    ProductID o = req_ProductID req.
Proof.
  intros Hrun. rewrite CreateOrder_run in Hrun.
  destruct (fetchProductInfo (table_service scan) _ d) as [[[product err] d0] t1].
  destruct product as [product|], err as [err|]; try discriminate.
  destruct (Qty product <? req_Quantity req); [discriminate|].
  destruct (uuid_New_String d0) as [id da], (time_Now da) as [now dc].
  cbn [repo table_service NewOrderService Create OrderRepository_IOrderRepository
       OrderRepository_Create db NewOrderRepository gorm_Create table_DB
       publisher PublishOrderCreated mockPublisher ID] in Hrun.
  destruct (db_up dc); cbn [negb] in Hrun; [|discriminate].
  destruct (has_key id (rows (db_world dc))) eqn:Hkey; [discriminate|].
  injection Hrun as <- <- _. cbn. eauto.
Qed.

(** Reading one's own write: after [CreateOrder] has returned an order,
    a read of the same product that finds the database in reach and nothing
    usable in the cache returns the rows of that product, in the order the
    database chose; the created order is among them, and every order
    returned belongs to the product.  (The read may come later, as long as
    the table has not changed.) *)
Theorem CreateOrder_then_read (req : CreateOrderRequest) (o : Order)
    (d d1 d2 : Database) (tr : list Event) (cerr : option error) :
  (forall table, Permutation (scan table) table) ->
  CreateOrder (table_service scan) req d = ((Some o, None), d1, tr) ->
  rows (db_world d2) = rows (db_world d1) ->
  db_up d2 = true ->
  (OrderCache_Get (NewOrderCache database_Client)
     (OrderCache_GetCacheKeyForProduct (req_ProductID req)) d2).1
    = (None, cerr) ->
  exists l d3 tr2,
    GetOrdersByProductID (table_service scan) (req_ProductID req) d2
    = ((Some l, None), d3, tr2) /\
    Permutation l (rows_of (req_ProductID req) (db_world d2)) /\
    In o l /\
    Forall (fun x => ProductID x = req_ProductID req) l.
Proof.
  intros Hscan Hrun Hrows Hup Hprobe.
  destruct (CreateOrder_inserted _ _ _ _ _ Hrun) as (earlier & Hlast & _ & Hpid).
  rewrite GetOrdersByProductID_run. cbn zeta.
  cbn [cache table_service NewOrderService GetCacheKeyForProduct Get
       OrderCache_IOrderCache].
  destruct (OrderCache_Get _ _ d2) as [probe d2'] eqn:Hget.
  cbn [fst] in Hprobe. subst probe.
  destruct (OrderCache_Get_database _ _ _ _ Hget) as (Hrows' & Hup').
  cbn [is_nil negb].
  cbn [repo table_service NewOrderService GetByProductID
       OrderRepository_IOrderRepository OrderRepository_GetByProductID
       db NewOrderRepository gorm_Where_Find table_DB String.eqb Ascii.eqb
       Bool.eqb].
  rewrite Hup', Hup. cbn [negb].
  destruct (Set_ _ _ _ d2') as [serr d3].
  assert (Heq : rows_of (req_ProductID req) (db_world d2')
                = rows_of (req_ProductID req) (db_world d2)).
  { unfold rows_of. now rewrite Hrows'. }
  rewrite Heq.
  assert (Hin : In o (rows_of (req_ProductID req) (db_world d2))).
  { unfold rows_of. apply List.filter_In. rewrite Hrows, Hlast. split.
    - apply in_or_app. right. now left.
    - now apply String.eqb_eq. }
  do 3 eexists. split; [reflexivity|]. split; [apply Hscan|]. split.
  - apply list_elem_of_In. rewrite (Hscan _). now apply list_elem_of_In.
  - apply Forall_forall. intros x Hx. rewrite (Hscan _) in Hx.
    apply list_elem_of_In in Hx. unfold rows_of in Hx.
    apply List.filter_In in Hx. now apply String.eqb_eq.
Qed.

End Table.

(* ===================================================================== *)
(** * Further scenarios *)
(* ===================================================================== *)

(** The successful order of the tests: the notification follows the
    accepted write and carries the order's product and quantity. *)
Lemma CreateOrder_valid_product_notified :
  exists o pre msg,
    (CreateOrder (test_service false) (mkRequest "valid-product" 5)
                 test_World).2
    = pre ++ [EvRepoCreate o None; EvPublish "valid-product" 5 None; EvLog msg] /\
    calls is_store_write pre = [] /\
    ProductID o = "valid-product" /\ Quantity o = 5.
Proof.
  edestruct CreateOrder_publish_after_write
    with (s := test_service false) (req := mkRequest "valid-product" 5)
         (w := test_World) (productId := "valid-product") (quantity := 5)
         (perr := @None error)
    as (o & pre & msg & Htr & Hw & Hp & Hres & Hpid & Hqty).
  - vm_compute. reflexivity.
  - in_trace.
  - exists o, pre, msg. rewrite <- Htr. auto.
Defined.

(** The order a store that is down was asked to write: built from the
    lookup, for a quantity the stock covers. *)
Lemma CreateOrder_database_down_order :
  exists o,
    In (EvRepoCreate o (Some ErrDatabaseDown))
       (CreateOrder failing_store_service (mkRequest "valid-product" 5)
                    test_World).2 /\
    TotalPrice o = 50%float /\ Status o = "PENDING" /\
    ID o = "7f0c0e4e-0000-4000-8000-000000000001" /\
    CreatedAt o = wall test_World.
Proof.
  eexists. split; [vm_compute; in_trace|].
  edestruct CreateOrder_written_order
    with (s := failing_store_service) (req := mkRequest "valid-product" 5)
         (w := test_World)
    as (product & Hf & Hq & Hprice & Hstatus & Hpid & Hqty & Hid & Hnow).
  - vm_compute. reflexivity.
  - in_trace.
  - repeat split.
Defined.

(** The successful order of the tests has a total that is not below
    zero. *)
Lemma CreateOrder_valid_product_total :
  exists o,
    In (EvRepoCreate o None)
       (CreateOrder (test_service false) (mkRequest "valid-product" 5)
                    test_World).2 /\
    (0 <=? TotalPrice o)%float = true.
Proof.
  eexists. split; [vm_compute; in_trace|].
  eapply CreateOrder_total_nonnegative
    with (s := test_service false) (req := mkRequest "valid-product" 5)
         (w := test_World).
  - vm_compute. reflexivity.
  - vm_compute. reflexivity.
  - vm_compute. reflexivity.
  - vm_compute. split; discriminate.
  - vm_compute. reflexivity.
  - in_trace.
Defined.

(** A read while both Redis and the database are down: the caller gets
    the database's error and a nil list. *)
Lemma GetOrdersByProductID_database_down :
  exists w' tr,
    GetOrdersByProductID failing_read_service "valid-product" down_World
    = ((None, Some ErrDatabaseDown), w', tr) /\
    calls is_cache_write tr = [].
Proof.
  edestruct (GetOrdersByProductID_error failing_read_service "valid-product"
               ErrDatabaseDown down_World) as (Hnil & _ & Hset).
  - vm_compute. reflexivity.
  - do 2 eexists. split; [vm_compute; reflexivity|exact Hset].
Defined.

(** A read fills the cache; 59 seconds later, with the orders table
    emptied meanwhile, the same read still returns the cached order and
    does not call the store. *)
Lemma GetOrdersByProductID_second_read :
  let first := GetOrdersByProductID cached_service "valid-product" stored_World in
  first.1.1 = (Some [sample_Order], None) /\
  exists tr2,
    GetOrdersByProductID cached_service "valid-product"
      (later (59 * Second) [] first.1.2)
    = ((Some [sample_Order], None), later (59 * Second) [] first.1.2, tr2) /\
    calls is_store_call tr2 = [].
Proof.
  cbn zeta.
  edestruct (GetOrdersByProductID_read_through cached_service
               "valid-product" "orders:product:valid-product" [sample_Order]
               stored_World) as (Hres & Hnext).
  - reflexivity.
  - vm_compute. reflexivity.
  - in_trace.
  - vm_compute. reflexivity.
  - split; [vm_compute; reflexivity|].
    apply Hnext with (d := 59 * Second).
    + unfold cache_ttl, Second. lia.
    + vm_compute. reflexivity.
Defined.

(** The same, 60 seconds later: the store is queried again, and the
    emptied table shows. *)
Lemma GetOrdersByProductID_third_read :
  let first := GetOrdersByProductID cached_service "valid-product" stored_World in
  exists w3 tr2,
    GetOrdersByProductID cached_service "valid-product"
      (later (60 * Second) [] first.1.2)
    = ((Some [], None), w3, tr2) /\
    calls is_store_call tr2 = [EvRepoGetByProductID "valid-product" (Some []) None].
Proof.
  cbn zeta.
  edestruct (GetOrdersByProductID_refresh cached_service
               "valid-product" "orders:product:valid-product"
               (Some [sample_Order]) stored_World)
    with (d := 60 * Second)
         (w2 := later (60 * Second) []
                  (GetOrdersByProductID cached_service "valid-product"
                     stored_World).1.2)
    as (Hprobe & found & qerr & Hstore).
  - reflexivity.
  - vm_compute. reflexivity.
  - in_trace.
  - unfold cache_ttl, Second. lia.
  - vm_compute. reflexivity.
  - vm_compute. reflexivity.
  - vm_compute in Hstore. injection Hstore as <- <-.
    do 2 eexists. split; [vm_compute; reflexivity|reflexivity].
Defined.

(** In front of [mockOrderRepository], whose reads return nil, the cache
    never answers: a read one second after the first queries the store
    again. *)
Lemma GetOrdersByProductID_nil_reread :
  let first := GetOrdersByProductID nil_store_service "valid-product" test_World in
  first.1.1 = (None, None) /\
  exists w3 tr2,
    GetOrdersByProductID nil_store_service "valid-product"
      (later Second [] first.1.2)
    = ((None, None), w3, tr2) /\
    calls is_store_call tr2 = [EvRepoGetByProductID "valid-product" None None].
Proof.
  cbn zeta.
  edestruct (GetOrdersByProductID_nil_not_cached nil_store_service
               "valid-product" "orders:product:valid-product" test_World)
    with (d := Second)
         (w2 := later Second []
                  (GetOrdersByProductID nil_store_service "valid-product"
                     test_World).1.2)
    as (Hres & Hprobe & found & qerr & Hstore).
  - reflexivity.
  - vm_compute. reflexivity.
  - in_trace.
  - vm_compute. reflexivity.
  - unfold Second. lia.
  - vm_compute. reflexivity.
  - vm_compute. reflexivity.
  - vm_compute in Hstore. injection Hstore as <- <-.
    split; [vm_compute; reflexivity|].
    do 2 eexists. split; [vm_compute; reflexivity|reflexivity].
Defined.

(** Caching the orders of valid-product does not change the miss the
    cache reports for no-stock. *)
Lemma OrderCache_Set_other_product :
  let c := NewOrderCache server_Client in
  let r1 := (OrderCache_Set c (OrderCache_GetCacheKeyForProduct "valid-product")
               (Some [sample_Order]) (redis test_World)).2 in
  OrderCache_Get c (OrderCache_GetCacheKeyForProduct "no-stock")
                 (elapse Second r1)
  = ((None, None), elapse Second r1).
Proof.
  cbn zeta.
  erewrite OrderCache_Set_frame
    with (p1 := "valid-product") (orders := Some [sample_Order])
         (r := redis test_World) (e := None).
  - vm_compute. reflexivity.
  - vm_compute. reflexivity.
  - left. discriminate.
Defined.

(** An event published to a broker where a message is already waiting:
    the new message goes behind it, and the queue audit is untouched. *)
Lemma PublishOrderCreated_busy_broker :
  exists b1,
    RabbitMQPublisher_PublishOrderCreated broker_Publisher "valid-product" 5
                                          busy_Broker
    = (None, b1) /\
    messages "order.created" b1
    = messages "order.created" busy_Broker ++
      [{| ContentType := "application/json";
          Body := "{'productId':'valid-product','quantity':5}" |}] /\
    queues b1 !! "audit" = Some [].
Proof.
  edestruct (PublishOrderCreated_delivers "valid-product" 5
               "{'productId':'valid-product','quantity':5}" busy_Broker)
    as (b1 & Hrun & Hmsgs & Hothers & Hopen).
  - reflexivity.
  - vm_compute. reflexivity.
  - exists b1. split; [exact Hrun|]. split; [exact Hmsgs|].
    rewrite Hothers by discriminate. vm_compute. reflexivity.
Defined.

(** Three failures on the busy broker: a channel that is already lost, an
    event that does not encode, and a channel lost between declaring the
    queue and publishing.  None delivers a message; the last error is the
    channel's own, not wrapped. *)
Lemma PublishOrderCreated_failures :
  (exists e l1,
     RabbitMQPublisher_PublishOrderCreated link_Publisher "valid-product" 5
                                           (mkLink busy_Broker 0)
     = (Some e, l1) /\
     errors_Unwrap e = Some ErrChannelClosed /\
     messages "order.created" (link_broker l1)
     = messages "order.created" busy_Broker) /\
  (exists e l1,
     RabbitMQPublisher_PublishOrderCreated
       (H := failing_EventJSON) link_Publisher "valid-product" 5
       (mkLink open_Broker 2)
     = (Some e, l1) /\
     Error e = "failed to marshal event: json: unsupported value" /\
     queues (link_broker l1) !! "order.created" = Some [] /\
     messages "order.created" (link_broker l1) = []) /\
  (exists l1,
     RabbitMQPublisher_PublishOrderCreated link_Publisher "valid-product" 5
                                           (mkLink busy_Broker 1)
     = (Some ErrChannelClosed, l1) /\
     messages "order.created" (link_broker l1)
     = messages "order.created" busy_Broker).
Proof.
  repeat split.
  - edestruct (PublishOrderCreated_failure "valid-product" 5)
      with (l := mkLink busy_Broker 0) as (Hmsgs & Hcause).
    + vm_compute. reflexivity.
    + do 2 eexists. split; [vm_compute; reflexivity|].
      split; [reflexivity|]. apply Hmsgs.
  - edestruct (PublishOrderCreated_failure (H := failing_EventJSON)
                 "valid-product" 5)
      with (l := mkLink open_Broker 2) as (Hmsgs & Hcause).
    + vm_compute. reflexivity.
    + do 2 eexists. split; [vm_compute; reflexivity|].
      split; [reflexivity|]. split; [reflexivity|]. apply Hmsgs.
  - edestruct (PublishOrderCreated_failure "valid-product" 5)
      with (l := mkLink busy_Broker 1) as (Hmsgs & Hcause).
    + vm_compute. reflexivity.
    + eexists. split; [vm_compute; reflexivity|]. apply Hmsgs.
Defined.

(** Three events published to the busy broker arrive in order behind the
    message that was waiting. *)
Lemma publish_all_three :
  let events := [("valid-product", 5); ("no-stock", 1); ("valid-product", 2)] in
  (publish_all events busy_Broker).1 = [None; None; None] /\
  map Body (messages "order.created" (publish_all events busy_Broker).2)
  = ["{'productId':'no-stock','quantity':1}";
     "{'productId':'valid-product','quantity':5}";
     "{'productId':'no-stock','quantity':1}";
     "{'productId':'valid-product','quantity':2}"].
Proof.
  cbn zeta.
  edestruct (publish_all_in_order
               [("valid-product", 5); ("no-stock", 1); ("valid-product", 2)]
               busy_Broker) as (Herrs & Hlen & Hmsgs & Hopen).
  - reflexivity.
  - repeat constructor.
  - split; [vm_compute; reflexivity|]. rewrite Hmsgs. vm_compute. reflexivity.
Defined.

(** An order created on the table, then read with nothing cached, on a
    database that returns the newest row first: the read returns the new
    order and the one that was there.  An order whose identifier is
    already a primary key of the table is refused. *)
Lemma CreateOrder_then_read_sample :
  let created :=
    @CreateOrder _ database_Runtime (table_service (@rev Order))
                (mkRequest "valid-product" 5) next_Database in
  (exists o d3 tr2,
     created.1.1 = (Some o, None) /\
     ID o = "7f0c0e4e-0000-4000-8000-000000000002" /\
     GetOrdersByProductID (table_service (@rev Order))
                          "valid-product" created.1.2
     = ((Some [o; sample_Order], None), d3, tr2)) /\
  (@CreateOrder _ database_Runtime (table_service (@rev Order))
               (mkRequest "valid-product" 5) stored_Database).1.1
  = (None, Some ErrDuplicateKey).
Proof.
  cbn zeta. split; [|vm_compute; reflexivity].
  edestruct (CreateOrder_then_read (rt := database_Runtime) (@rev Order)
               (mkRequest "valid-product" 5))
    with (d := next_Database)
         (d2 := (@CreateOrder _ database_Runtime (table_service (@rev Order))
                   (mkRequest "valid-product" 5) next_Database).1.2)
    as (l & d3 & tr2 & Hread & Hperm & Hin & Hall).
  - intros table. apply Permutation_sym, Permutation_rev.
  - vm_compute. reflexivity.
  - vm_compute. reflexivity.
  - vm_compute. reflexivity.
  - vm_compute. reflexivity.
  - cbn [req_ProductID] in Hread.
    eexists. exists d3, tr2. split; [vm_compute; reflexivity|].
    split; [reflexivity|]. rewrite Hread. vm_compute in Hread.
    injection Hread as <- _ _. reflexivity.
Defined.
